(** * articles_to_xlsx: a shallow embedding of the trend/article pipeline

    The Python module [articles_to_xlsx.py] fetches trends and articles from a
    content API, derives a few projections of every article and assembles the
    tables of a workbook.  This file embeds the pure helpers
    ([strip_tags], [get_human_date], [extract_url], [extract_content],
    [extract_type], [sanitize_sheet_name]), the pagination loop of
    [search_articles] and the per-trend loop of [main], and proves the
    properties the specification states about them.

    Python [str] values are modelled by [string] (one [ascii] per character,
    so the characters are those below 256), decoded JSON documents by the
    type [json], exceptions by the error monad [exc]; the HTTP service is a
    function from the requests sent so far and the current request to a
    decoded body or an exception, and a loop that may go on for ever takes
    the number of turns it may use. *)

From Stdlib Require Import String Ascii List ZArith Bool Arith Lia.
Import ListNotations.

Local Open Scope string_scope.

(** ** Python strings *)

Module PyStr.

(** [str.isspace] restricted to the characters below 256: the ASCII
    white space (tab, line feed, vertical tab, form feed, carriage return,
    the four separators 0x1c-0x1f, space) and the two Latin-1 ones
    (0x85 and 0xa0). *)
Definition isspace (c : ascii) : bool :=
  let n := nat_of_ascii c in
  (((9 <=? n) && (n <=? 13)) || ((28 <=? n) && (n <=? 32))
   || (n =? 133) || (n =? 160))%nat.

(** [s] without its leading characters that satisfy [p]. *)
Fixpoint lstrip_of (p : ascii -> bool) (s : string) : string :=
  match s with
  | EmptyString => EmptyString
  | String c t => if p c then lstrip_of p t else s
  end.

(** [s] without its trailing characters that satisfy [p]. *)
Fixpoint rstrip_of (p : ascii -> bool) (s : string) : string :=
  match s with
  | EmptyString => EmptyString
  | String c t =>
      match rstrip_of p t with
      | EmptyString => if p c then EmptyString else String c EmptyString
      | t' => String c t'
      end
  end.

Definition strip_of (p : ascii -> bool) (s : string) : string :=
  rstrip_of p (lstrip_of p s).

(** [s.strip()] *)
Definition strip (s : string) : string := strip_of isspace s.

(** [s.startswith(p)]; on success the rest of [s] after the prefix. *)
Fixpoint drop_prefix (p s : string) : option string :=
  match p, s with
  | EmptyString, _ => Some s
  | String a p', String b s' => if Ascii.eqb a b then drop_prefix p' s' else None
  | String _ _, EmptyString => None
  end.

(** [s.replace(old, new)] for a non-empty [old]: the occurrences of [old]
    are found from left to right and do not overlap.  [skip] counts the
    characters of the occurrence being replaced that are still to be
    passed over. *)
Fixpoint replace_from (old new : string) (skip : nat) (s : string) : string :=
  match s with
  | EmptyString => EmptyString
  | String c t =>
      match skip with
      | S k => replace_from old new k t
      | O =>
          match drop_prefix old s with
          | Some _ => new ++ replace_from old new (String.length old - 1) t
          | None => String c (replace_from old new 0 t)
          end
      end
  end.

Definition replace (old new s : string) : string := replace_from old new 0 s.

(** [s[:n]] for [n >= 0] *)
Fixpoint slice_to (n : nat) (s : string) : string :=
  match n, s with
  | O, _ => EmptyString
  | S _, EmptyString => EmptyString
  | S k, String c t => String c (slice_to k t)
  end.

(** [sep.join(parts)] *)
Fixpoint join (sep : string) (parts : list string) : string :=
  match parts with
  | [] => EmptyString
  | [p] => p
  | p :: rest => p ++ sep ++ join sep rest
  end.

(** [s.find(sub) != -1]: [sub] occurs in [s]. *)
Fixpoint contains (sub s : string) : bool :=
  match drop_prefix sub s with
  | Some _ => true
  | None => match s with
            | EmptyString => false
            | String _ t => contains sub t
            end
  end.

(** Number of positions of [s] at which [sub] starts. *)
Fixpoint occurrences (sub s : string) : nat :=
  (match drop_prefix sub s with Some _ => 1 | None => 0 end)
  + match s with
    | EmptyString => 0
    | String _ t => occurrences sub t
    end.

End PyStr.

(** ** Regular expressions: [re.sub]

    A compiled pattern is represented by its anchored matcher: given the text
    from the current position on, the matcher answers with the length of the
    match that starts there, if there is one.  Both patterns of the module
    match at least one character, so the empty-match rules of [re.sub] play
    no role. *)

Module Re.

Section Sub.
Variable matcher : string -> option nat.
Variable repl : string.

(** [re.sub(pattern, repl, s)]: scan from the left; where the pattern
    matches, emit [repl] and resume after the match; elsewhere copy the
    character.  [skip] counts the characters of the current match that
    are still to be passed over. *)
Fixpoint sub_from (skip : nat) (s : string) : string :=
  match s with
  | EmptyString => EmptyString
  | String c t =>
      match skip with
      | S k => sub_from k t
      | O =>
          match matcher s with
          | Some n => repl ++ sub_from (n - 1) t
          | None => String c (sub_from 0 t)
          end
      end
  end.

Definition sub (s : string) : string := sub_from 0 s.
End Sub.

(** [re.search(pattern, s) is not None]: the pattern matches somewhere. *)
Fixpoint search (matcher : string -> option nat) (s : string) : bool :=
  match matcher s with
  | Some _ => true
  | None =>
      match s with
      | EmptyString => false
      | String _ t => search matcher t
      end
  end.

(** A character class [[...]] given by its members. *)
Definition in_class (members : list ascii) (c : ascii) : bool :=
  existsb (Ascii.eqb c) members.

(** Matcher of a one-character class. *)
Definition match_class (members : list ascii) (s : string) : option nat :=
  match s with
  | String c _ => if in_class members c then Some 1 else None
  | EmptyString => None
  end.

(** Length of the longest prefix made of characters satisfying [p]
    (a greedy [[...]*]). *)
Fixpoint span_len (p : ascii -> bool) (s : string) : nat :=
  match s with
  | String c t => if p c then S (span_len p t) else 0
  | EmptyString => 0
  end.

(** Character at offset [n]. *)
Fixpoint char_at (n : nat) (s : string) : option ascii :=
  match n, s with
  | _, EmptyString => None
  | O, String c _ => Some c
  | S k, String _ t => char_at k t
  end.

End Re.

Local Open Scope char_scope.

(** [RE_STRIP = re.compile(r'</?[^>]+>', re.IGNORECASE)].  The pattern has no
    letters, so the flag changes nothing. *)

Definition not_gt (c : ascii) : bool := negb (Ascii.eqb c ">").

(** [[^>]+>] anchored at the head of [s]: the greedy run of characters other
    than [>] must be non-empty and be followed by [>].  Giving characters of
    the run back cannot help, since the character after a shorter run is not
    [>].  The result is the number of characters matched. *)
Definition match_body (s : string) : option nat :=
  let n := Re.span_len not_gt s in
  match n, Re.char_at n s with
  | S _, Some _ => Some (S n)
  | _, _ => None
  end.

(** [</?[^>]+>] anchored at the head of [s]: after [<] the optional [/] is
    first taken (greedy) and, when the rest fails, given back. *)
Definition match_RE_STRIP (s : string) : option nat :=
  match s with
  | String c t =>
      if Ascii.eqb c "<" then
        match t with
        | String d t' =>
            if Ascii.eqb d "/" then
              match match_body t' with
              | Some n => Some (2 + n)
              | None => option_map S (match_body t)
              end
            else option_map S (match_body t)
        | EmptyString => None
        end
      else None
  | EmptyString => None
  end.

Local Close Scope char_scope.

(** The chain of [strip_tags] applied to a string:
    [re.sub(RE_STRIP, ' ', s).replace('\n', ' ').replace('\r', ' ')
       .replace('  ', ' ').strip()]. *)
Definition LF : string := String (ascii_of_nat 10) "".
Definition CR : string := String (ascii_of_nat 13) "".

Definition strip_markup (html_content : string) : string :=
  PyStr.strip
    (PyStr.replace "  " " "
       (PyStr.replace CR " "
          (PyStr.replace LF " "
             (Re.sub match_RE_STRIP " " html_content)))).

(** [sanitize_sheet_name(name)]: the class of the pattern is
    [[\[\]:*?/\\]]. *)
Definition illegal_sheet_chars : list ascii :=
  ["["; "]"; ":"; "*"; "?"; "/"; "\"]%char.

Definition sanitize_sheet_name (name : string) : string :=
  let name := Re.sub (Re.match_class illegal_sheet_chars) "" name in
  PyStr.slice_to 31 name.

(** ** Python values and exceptions *)

(** A decoded JSON document ([response.json()]): [None], [bool], [int],
    [str], [list] and [dict].  A [dict] is kept as its items in insertion
    order, each key once.  Numbers with a fraction ([float]) are outside
    the model. *)
#[local] Set Warnings "-register-all".

Inductive json : Type :=
| JNull
| JBool (b : bool)
| JNum (n : Z)
| JStr (s : string)
| JArr (items : list json)
| JObj (fields : list (string * json)).

Definition pydict : Type := list (string * json).

Inductive exn : Type :=
| TypeError | AttributeError | ValueError | OverflowError | RequestException.

(** The outcome of an expression that may raise. *)
Inductive exc (A : Type) : Type :=
| Ok (a : A)
| Raise (e : exn).
Arguments Ok {A} a.
Arguments Raise {A} e.

Definition bind {A B : Type} (m : exc A) (k : A -> exc B) : exc B :=
  match m with
  | Ok a => k a
  | Raise e => Raise e
  end.

Notation "x <- m ;; k" := (bind m (fun x => k))
  (at level 61, m at next level, right associativity).

(** Run [f] on the elements from left to right, stopping at the first
    exception (a comprehension or a [for] loop that collects). *)
Fixpoint mapM {A B : Type} (f : A -> exc B) (l : list A) : exc (list B) :=
  match l with
  | [] => Ok []
  | a :: l' => b <- f a ;; bs <- mapM f l' ;; Ok (b :: bs)
  end.

Module Py.

(** [bool(v)] *)
Definition truthy (v : json) : bool :=
  match v with
  | JNull => false
  | JBool b => b
  | JNum n => negb (n =? 0)%Z
  | JStr s => negb (String.eqb s "")
  | JArr l => match l with [] => false | _ => true end
  | JObj d => match d with [] => false | _ => true end
  end.

(** [d.get(key)] on a dict, as an option. *)
Fixpoint lookup (key : string) (d : pydict) : option json :=
  match d with
  | [] => None
  | (k, v) :: d' => if String.eqb key k then Some v else lookup key d'
  end.

(** [key in d] *)
Definition has_key (key : string) (d : pydict) : bool :=
  match lookup key d with Some _ => true | None => false end.

(** [d.get(key, default)] on a dict. *)
Definition dict_get (d : pydict) (key : string) (default : json) : json :=
  match lookup key d with Some v => v | None => default end.

(** [v.get(key, default)] on any value: only a dict has [get]. *)
Definition get (v : json) (key : string) (default : json) : exc json :=
  match v with
  | JObj d => Ok (dict_get d key default)
  | _ => Raise AttributeError
  end.

(** [isinstance(v, list)] *)
Definition is_list (v : json) : bool :=
  match v with JArr _ => true | _ => false end.

(** The one-character strings of a string. *)
Fixpoint chars (s : string) : list json :=
  match s with
  | EmptyString => []
  | String c t => JStr (String c "") :: chars t
  end.

(** The elements [for x in v] goes through: the items of a list, the keys
    of a dict, the characters of a string. *)
Definition iter (v : json) : exc (list json) :=
  match v with
  | JArr l => Ok l
  | JObj d => Ok (map (fun kv => JStr (fst kv)) d)
  | JStr s => Ok (chars s)
  | _ => Raise TypeError
  end.

(** [a == b].  [True] and [False] are the integers 1 and 0; lists compare
    element by element, dicts key by key whatever the order. *)
Fixpoint eq (a b : json) {struct a} : bool :=
  match a, b with
  | JNull, JNull => true
  | JBool x, JBool y => Bool.eqb x y
  | JBool x, JNum n => (n =? (if x then 1 else 0))%Z
  | JNum n, JBool x => (n =? (if x then 1 else 0))%Z
  | JNum n, JNum m => (n =? m)%Z
  | JStr s, JStr t => String.eqb s t
  | JArr l, JArr m =>
      (fix eq_list (l m : list json) {struct l} : bool :=
         match l, m with
         | [], [] => true
         | x :: l', y :: m' => eq x y && eq_list l' m'
         | _, _ => false
         end) l m
  | JObj d, JObj e =>
      (length d =? length e)%nat
      && (fix eq_fields (d : pydict) {struct d} : bool :=
            match d with
            | [] => true
            | (k, v) :: d' =>
                match lookup k e with
                | Some w => eq v w && eq_fields d'
                | None => false
                end
            end) d
  | _, _ => false
  end.

(** [v in strs] for a list of strings. *)
Definition in_strs (v : json) (strs : list string) : bool :=
  existsb (fun s => eq v (JStr s)) strs.

End Py.

(** ** The extractors *)

(** [strip_tags(html_content)]: a falsy argument gives [''] whatever its
    type; [re.sub] accepts only a string. *)
Definition strip_tags (html_content : json) : exc string :=
  if negb (Py.truthy html_content) then Ok ""
  else match html_content with
       | JStr s => Ok (strip_markup s)
       | _ => Raise TypeError
       end.

(** [extract_url(article)] *)
Definition extract_url (article : pydict) : exc json :=
  if Py.has_key "canonicalUrl" article
     && Py.truthy (Py.dict_get article "canonicalUrl" JNull)
  then Ok (Py.dict_get article "canonicalUrl" JNull)
  else
    let alternates := Py.dict_get article "alternate" (JArr []) in
    if Py.truthy alternates && Py.is_list alternates then
      match alternates with
      | JArr (first :: _) => Py.get first "href" (JStr "")
      | _ => Ok (JStr "")
      end
    else Ok (JStr "").

(** [article.get(outer) and article[outer].get('content')] *)
Definition nested_content (article : pydict) (outer : string) : exc json :=
  let v := Py.dict_get article outer JNull in
  if Py.truthy v then Py.get v "content" JNull else Ok v.

(** [extract_content(article)] *)
Definition extract_content (article : pydict) : exc string :=
  if Py.truthy (Py.dict_get article "fullContent" JNull) then
    strip_tags (Py.dict_get article "fullContent" JNull)
  else
    c <- nested_content article "content" ;;
    if Py.truthy c then strip_tags c
    else
      s <- nested_content article "summary" ;;
      if Py.truthy s then strip_tags s
      else Ok "".

(** The categories one [businessEvents] entry appends to [types]. *)
Definition event_types (regulatory_ids : list string) (conference_id : string)
    (be : json) : exc (list string) :=
  id <- Py.get be "id" JNull ;;
  Ok (app (if Py.in_strs id regulatory_ids then ["Regulatory"] else [])
          (if Py.eq id (JStr conference_id) then ["Conferences"] else [])).

(** The categories one [commonTopics] entry appends to [types]. *)
Definition topic_types (expert_id : string) (topic : json) : exc (list string) :=
  id <- Py.get topic "id" JNull ;;
  Ok (if Py.eq id (JStr expert_id) then ["Expert Mentions"] else []).

(** The list [types] at the end of the two loops of [extract_type]. *)
Definition collect_types (article : pydict) (regulatory_ids : list string)
    (expert_id conference_id : string) : exc (list string) :=
  events <- Py.iter (Py.dict_get article "businessEvents" (JArr [])) ;;
  from_events <- mapM (event_types regulatory_ids conference_id) events ;;
  topics <- Py.iter (Py.dict_get article "commonTopics" (JArr [])) ;;
  from_topics <- mapM (topic_types expert_id) topics ;;
  Ok (app (concat from_events) (concat from_topics)).

Section SetOrder.

(** [set(types)] enumerates the distinct elements of [types] in an order
    that depends on the hashes of the strings: [set_iter] stands for that
    enumeration. *)
Variable set_iter : list string -> list string.

(** [extract_type(article, regulatory_ids, expert_id, conference_id)] *)
Definition extract_type (article : pydict) (regulatory_ids : list string)
    (expert_id conference_id : string) : exc string :=
  types <- collect_types article regulatory_ids expert_id conference_id ;;
  Ok (match types with
      | [] => ""
      | _ => PyStr.join ", " (set_iter types)
      end).

End SetOrder.

(** What is required of an enumeration of a set: every element once. *)
Definition enumerates_set (set_iter : list string -> list string) : Prop :=
  forall l, NoDup (set_iter l) /\ (forall x, In x (set_iter l) <-> In x l).

(** The constants [main] passes to [extract_type]. *)
Definition regulatory_ids : list string :=
  ["nlp/f/businessEvent/regulatory-changes";
   "nlp/f/businessEvent/regulatory-approvals"].
Definition expert_id : string := "nlp/f/topic/6001".
Definition conference_id : string :=
  "nlp/f/businessEvent/participation-in-an-event".

(** ** Timestamps *)

Module DateTime.

Local Open Scope Z_scope.

(** [int(s)] for a string, base 10: white space around, an optional sign,
    then digits, with single underscores allowed between digits. *)
Definition is_digit (c : ascii) : bool :=
  (48 <=? nat_of_ascii c)%nat && (nat_of_ascii c <=? 57)%nat.

Definition digit_value (c : ascii) : Z := Z.of_nat (nat_of_ascii c) - 48.

Fixpoint parse_digits (acc : Z) (after_digit : bool) (s : string) : option Z :=
  match s with
  | EmptyString => if after_digit then Some acc else None
  | String c t =>
      if is_digit c then parse_digits (acc * 10 + digit_value c) true t
      else if Ascii.eqb c "_" && after_digit then parse_digits acc false t
      else None
  end.

(** The number of digits of a literal, and the most [int] converts
    ([sys.int_info.default_max_str_digits]). *)
Fixpoint count_digits (s : string) : nat :=
  match s with
  | EmptyString => O
  | String c t => ((if is_digit c then 1 else 0) + count_digits t)%nat
  end.

Definition MAX_STR_DIGITS : nat := 4300.

(** The white space [int] accepts around a literal: the ASCII one (tab to
    carriage return, space) and, of the characters from 128 on, those of
    [str.isspace]. *)
Definition is_int_space (c : ascii) : bool :=
  let n := nat_of_ascii c in
  (((9 <=? n) && (n <=? 13)) || (n =? 32) || (n =? 133) || (n =? 160))%nat.

Definition int_of_str (s : string) : exc Z :=
  let literal (digits : string) (sign : Z) : exc Z :=
    match parse_digits 0 false digits with
    | Some n =>
        if (MAX_STR_DIGITS <? count_digits digits)%nat then Raise ValueError
        else Ok (sign * n)
    | None => Raise ValueError
    end in
  match PyStr.strip_of is_int_space s with
  | EmptyString => Raise ValueError
  | String c t as body =>
      if Ascii.eqb c "-" then literal t (-1)
      else if Ascii.eqb c "+" then literal t 1
      else literal body 1
  end.

(** [int(v)] *)
Definition int (v : json) : exc Z :=
  match v with
  | JNum n => Ok n
  | JBool b => Ok (if b then 1 else 0)
  | JStr s => int_of_str s
  | JNull | JArr _ | JObj _ => Raise TypeError
  end.

(** The proleptic Gregorian calendar of the [datetime] module. *)
Definition is_leap (year : Z) : bool :=
  (year mod 4 =? 0) && (negb (year mod 100 =? 0) || (year mod 400 =? 0)).

(** [_DAYS_IN_MONTH] and [_DAYS_BEFORE_MONTH], indexed from 1. *)
Definition DAYS_IN_MONTH (month : Z) : Z :=
  nth (Z.to_nat month) [0; 31; 28; 31; 30; 31; 30; 31; 31; 30; 31; 30; 31] 0.

Definition DAYS_BEFORE_MONTH (month : Z) : Z :=
  nth (Z.to_nat month)
      [0; 0; 31; 59; 90; 120; 151; 181; 212; 243; 273; 304; 334] 0.

Definition days_in_month (year month : Z) : Z :=
  if (month =? 2) && is_leap year then 29 else DAYS_IN_MONTH month.

Definition days_before_year (year : Z) : Z :=
  let y := year - 1 in
  y * 365 + y / 4 - y / 100 + y / 400.

Definition days_before_month (year month : Z) : Z :=
  DAYS_BEFORE_MONTH month
  + (if (2 <? month) && is_leap year then 1 else 0).

(** [_ymd2ord]: the ordinal of a date, 0001-01-01 being day 1. *)
Definition ymd2ord (year month day : Z) : Z :=
  days_before_year year + days_before_month year month + day.

Definition DI400Y : Z := 146097.
Definition DI100Y : Z := 36524.
Definition DI4Y : Z := 1461.
Definition MAXORDINAL : Z := 3652059.

(** [_ord2ymd]: the date of an ordinal. *)
Definition ord2ymd (ordinal : Z) : Z * Z * Z :=
  let n := ordinal - 1 in
  let n400 := n / DI400Y in
  let n := n mod DI400Y in
  let n100 := n / DI100Y in
  let n := n mod DI100Y in
  let n4 := n / DI4Y in
  let n := n mod DI4Y in
  let n1 := n / 365 in
  let n := n mod 365 in
  let year := n400 * 400 + 1 + n100 * 100 + n4 * 4 + n1 in
  if (n1 =? 4) || (n100 =? 4) then (year - 1, 12, 31)
  else
    let leapyear := (n1 =? 3) && (negb (n4 =? 24) || (n100 =? 3)) in
    let month := Z.shiftr (n + 50) 5 in
    let preceding :=
      DAYS_BEFORE_MONTH month + (if (2 <? month) && leapyear then 1 else 0) in
    if n <? preceding then
      let month := month - 1 in
      let preceding :=
        preceding
        - (DAYS_IN_MONTH month + (if (month =? 2) && leapyear then 1 else 0)) in
      (year, month, n - preceding + 1)
    else (year, month, n - preceding + 1).

Record datetime : Type := {
  year : Z; month : Z; day : Z; hour : Z; minute : Z; second : Z
  }.

(** The ordinal of 1970-01-01. *)
Definition EPOCH_ORDINAL : Z := 719163.

(** [datetime.utcfromtimestamp(ms / 1000)] down to the second, for an
    integer [ms].  The quotient is a double and the constructor rounds it to
    the microsecond; as the fraction of [ms / 1000] is a whole number of
    milliseconds and the error of the quotient stays below 16 microseconds
    for every date the type can hold, the whole seconds are those of the
    floor of the exact quotient.  A date outside the years 1 to 9999, or a
    number no double can hold, makes the call raise. *)
Definition utcfromtimestamp_ms (ms : Z) : exc datetime :=
  let secs := ms / 1000 in
  let ordinal := secs / 86400 + EPOCH_ORDINAL in
  let rest := secs mod 86400 in
  if (1 <=? ordinal) && (ordinal <=? MAXORDINAL) then
    let '(y, m, d) := ord2ymd ordinal in
    Ok {| year := y; month := m; day := d;
          hour := rest / 3600; minute := (rest mod 3600) / 60;
          second := rest mod 60 |}
  else Raise ValueError.

(** Decimal digits, zero padded. *)
Definition digit_char (d : Z) : ascii := ascii_of_nat (48 + Z.to_nat d).

Definition pad2 (n : Z) : string :=
  String (digit_char (n / 10 mod 10)) (String (digit_char (n mod 10)) "").

Definition pad4 (n : Z) : string :=
  String (digit_char (n / 1000 mod 10))
    (String (digit_char (n / 100 mod 10)) (pad2 n)).

(** [%Y] for a year from 1 to 9999, as CPython 3.11 gets it from the GNU C
    library: the decimal digits of the year without padding, so that a year
    below 1000 takes fewer than four characters. *)
Definition year_text (y : Z) : string :=
  if y <? 10 then String (digit_char (y mod 10)) ""
  else if y <? 100 then pad2 y
  else if y <? 1000 then String (digit_char (y / 100 mod 10)) (pad2 y)
  else pad4 y.

(** [dt.strftime('%Y-%m-%d %H:%M:%S')]: the fields after the year are
    printed on two digits. *)
Definition strftime (dt : datetime) : string :=
  (year_text (year dt) ++ "-" ++ pad2 (month dt) ++ "-" ++ pad2 (day dt) ++ " "
   ++ pad2 (hour dt) ++ ":" ++ pad2 (minute dt) ++ ":" ++ pad2 (second dt))%string.

(** Seconds from the epoch to a date and time of day. *)
Definition epoch_seconds (dt : datetime) : Z :=
  (ymd2ord (year dt) (month dt) (day dt) - EPOCH_ORDINAL) * 86400
  + hour dt * 3600 + minute dt * 60 + second dt.

(** A date and time of day of the calendar. *)
Definition valid (dt : datetime) : Prop :=
  1 <= year dt <= 9999 /\ 1 <= month dt <= 12
  /\ 1 <= day dt <= days_in_month (year dt) (month dt)
  /\ 0 <= hour dt < 24 /\ 0 <= minute dt < 60 /\ 0 <= second dt < 60.

(** The month and the day of the [n]-th day (from 0) of a year, as
    computed at the end of [ord2ymd]. *)
Definition month_day (leapyear : bool) (n : Z) : Z * Z :=
  let month := Z.shiftr (n + 50) 5 in
  let preceding :=
    DAYS_BEFORE_MONTH month + (if (2 <? month) && leapyear then 1 else 0) in
  if n <? preceding then
    let month := month - 1 in
    let preceding :=
      preceding
      - (DAYS_IN_MONTH month + (if (month =? 2) && leapyear then 1 else 0)) in
    (month, n - preceding + 1)
  else (month, n - preceding + 1).

(** The month and the day found for day [n] are a date of the year, and
    that date is day [n]. *)
Definition month_day_ok (leapyear : bool) (n : Z) : bool :=
  let '(m, d) := month_day leapyear n in
  (1 <=? m) && (m <=? 12) && (1 <=? d)
  && (d <=? (if (m =? 2) && leapyear then 29 else DAYS_IN_MONTH m))
  && (DAYS_BEFORE_MONTH m + (if (2 <? m) && leapyear then 1 else 0) + d
      =? n + 1).

End DateTime.

(** [get_human_date(unix_ms)]: every exception of the conversion is caught. *)
Definition get_human_date (unix_ms : json) : string :=
  match (ms <- DateTime.int unix_ms ;;
         dt <- DateTime.utcfromtimestamp_ms ms ;;
         Ok (DateTime.strftime dt)) with
  | Ok text => text
  | Raise _ => ""
  end.

(** ** The article search *)

(** What varies in a request of [search_articles]: the bearer token, the
    [text] of the parts of the first layer, and the query parameters
    [newerThan] and [continuation] when they are set.  The URL, the second
    layer, the source and [count] are constants. *)
Record request : Type := {
  rq_api_key : string;
  rq_texts : list json;
  rq_newer_than : option Z;
  rq_continuation : option json
}.

Record loop_state : Type := {
  all_items : list json;
  continuation : json;
  last_continuation : json;
  page : nat
}.

(** How one turn of the [while True] loop ends. *)
Inductive turn : Type :=
| Break (items : list json)
| Again (st : loop_state).

Section Network.

(** The service: what [requests.post(...)], [raise_for_status()] and
    [response.json()] give for a request, knowing the requests sent
    before (oldest first): the decoded body or an exception. *)
Variable post : list request -> request -> exc json.

Section Search.
Variable api_key : string.
Variable aliases : list json.
Variable newer_than : option Z.

(** The request of a turn: the token is attached [if continuation]. *)
Definition page_request (st : loop_state) : request :=
  {| rq_api_key := api_key;
     rq_texts := aliases;
     rq_newer_than := newer_than;
     rq_continuation :=
       if Py.truthy (continuation st) then Some (continuation st) else None |}.

(** One turn of the loop.  The [try] covers the request only; reading
    [items] out of the body is outside. *)
Definition search_turn (sent : list request) (st : loop_state) : exc turn :=
  match post sent (page_request st) with
  | Raise _ => Ok (Break (all_items st))
  | Ok data =>
      items <- Py.get data "items" (JArr []) ;;
      new_items <- Py.iter items ;;
      let all_items' := (all_items st ++ new_items)%list in
      let last_continuation' := continuation st in
      continuation' <- Py.get data "continuation" JNull ;;
      if negb (Py.truthy continuation') || Py.eq continuation' last_continuation'
      then Ok (Break all_items')
      else Ok (Again {| all_items := all_items';
                        continuation := continuation';
                        last_continuation := last_continuation';
                        page := S (page st) |})
  end.

(** The loop, for at most [fuel] turns ([None]: still running).  The
    result comes with the requests sent so far. *)
Fixpoint search_loop (fuel : nat) (sent : list request) (st : loop_state)
  : option (exc (list json * list request)) :=
  match fuel with
  | O => None
  | S fuel' =>
      match search_turn sent st with
      | Raise e => Some (Raise e)
      | Ok (Break items) => Some (Ok (items, (sent ++ [page_request st])%list))
      | Ok (Again st') => search_loop fuel' (sent ++ [page_request st])%list st'
      end
  end.

Definition initial_state : loop_state :=
  {| all_items := []; continuation := JNull; last_continuation := JNull;
     page := 1 |}.

(** [search_articles(api_key, aliases, newer_than)] *)
Definition search_articles (fuel : nat) (sent : list request)
  : option (exc (list json * list request)) :=
  search_loop fuel sent initial_state.

End Search.

End Network.

(** ** The report *)

(** A row of the summary sheet: the list
    [[aliases_str, len(articles), regulatory, expert, conferences]]. *)
Record summary_row : Type := {
  sr_aliases : string;
  sr_total : nat;
  sr_regulatory : nat;
  sr_expert : nat;
  sr_conferences : nat
}.

(** A row of a detail sheet: the dict with the keys [id], [title],
    [crawled], [url], [content] and [type]. *)
Record detail_row : Type := {
  dr_id : json;
  dr_title : json;
  dr_crawled : string;
  dr_url : json;
  dr_content : string;
  dr_type : string
}.

(** The lists [summary_rows] and [trend_data] of [main]. *)
Record report : Type := {
  summary_rows : list summary_row;
  trend_data : list (string * list detail_row)
}.

Definition empty_report : report := {| summary_rows := []; trend_data := [] |}.

(** A method of [dict] called on a value that may be something else. *)
Definition as_dict (v : json) : exc pydict :=
  match v with
  | JObj d => Ok d
  | _ => Raise AttributeError
  end.

(** An item of [", ".join(...)] must be a string. *)
Definition as_str (v : json) : exc string :=
  match v with
  | JStr s => Ok s
  | _ => Raise TypeError
  end.

(** [get_aliases_from_trend(trend)]: [list(trend.get('aliases', []))] *)
Definition get_aliases_from_trend (trend : json) : exc (list json) :=
  aliases <- Py.get trend "aliases" (JArr []) ;;
  Py.iter aliases.

(** [trend.get('label', '').strip()] *)
Definition trend_label (trend : json) : exc string :=
  label <- Py.get trend "label" (JStr "") ;;
  match label with
  | JStr s => Ok (PyStr.strip s)
  | _ => Raise AttributeError
  end.

(** The search terms of a trend, lines 171-180 of [main]: its aliases or,
    without any, its label; [None] when the trend is skipped. *)
Definition search_terms (trend : json) : exc (option (list json)) :=
  aliases <- get_aliases_from_trend trend ;;
  label <- trend_label trend ;;
  let aliases :=
    match aliases with
    | [] => if negb (String.eqb label "") then [JStr label] else []
    | _ => aliases
    end in
  match aliases with
  | [] => Ok None
  | _ => Ok (Some aliases)
  end.

(** [l[:k]] *)
Definition slice_list {A : Type} (k : Z) (l : list A) : list A :=
  if (0 <=? k)%Z then firstn (Z.to_nat k) l
  else firstn (length l - Z.to_nat (- k)) l.

Section Main.

Variable set_iter : list string -> list string.
Variable post : list request -> request -> exc json.
Variable api_key : string.
Variable newer_than : option Z.

(** [extract_type(a, regulatory_ids, expert_id, conference_id)] on an item
    of [articles]. *)
Definition article_type (a : json) : exc string :=
  article <- as_dict a ;;
  extract_type set_iter article regulatory_ids expert_id conference_id.

(** [sum(1 for a in articles if extract_type(a, ...).find(label) != -1)] *)
Definition count_type (label : string) (articles : list json) : exc nat :=
  types <- mapM article_type articles ;;
  Ok (length (filter (PyStr.contains label) types)).

(** The dict appended to [rows] for an article. *)
Definition classify (a : json) : exc detail_row :=
  article <- as_dict a ;;
  url <- extract_url article ;;
  content <- extract_content article ;;
  type <- extract_type set_iter article regulatory_ids expert_id conference_id ;;
  Ok {| dr_id := Py.dict_get article "id" (JStr "");
        dr_title := Py.dict_get article "title" (JStr "");
        dr_crawled := get_human_date (Py.dict_get article "crawled" (JStr ""));
        dr_url := url;
        dr_content := content;
        dr_type := type |}.

(** Lines 189-209 of [main]: the summary row and the sheet of a trend
    whose search returned [articles]. *)
Definition tabulate (aliases_str : string) (first_alias : string)
    (articles : list json) (r : report) : exc report :=
  regulatory <- count_type "Regulatory" articles ;;
  expert <- count_type "Expert Mentions" articles ;;
  conferences <- count_type "Conferences" articles ;;
  let row := {| sr_aliases := aliases_str;
                sr_total := length articles;
                sr_regulatory := regulatory;
                sr_expert := expert;
                sr_conferences := conferences |} in
  rows <- mapM classify articles ;;
  Ok {| summary_rows := (summary_rows r ++ [row])%list;
        trend_data :=
          (trend_data r ++ [(sanitize_sheet_name first_alias, rows)])%list |}.

(** The body of the [for] loop of [main] for one trend: the report and
    the requests sent so far go in and come out. *)
Definition process_trend (fuel : nat) (trend : json)
    (state : report * list request) : option (exc (report * list request)) :=
  let '(r, sent) := state in
  match search_terms trend with
  | Raise e => Some (Raise e)
  | Ok None => Some (Ok (r, sent))
  | Ok (Some aliases) =>
      match mapM as_str aliases with
      | Raise e => Some (Raise e)
      | Ok texts =>
          let aliases_str := PyStr.join ", " texts in
          match search_articles post api_key aliases newer_than fuel sent with
          | None => None
          | Some (Raise e) => Some (Raise e)
          | Some (Ok (articles, sent')) =>
              match articles with
              | [] => Some (Ok (r, sent'))
              | _ =>
                  match tabulate aliases_str (hd "" texts) articles r with
                  | Raise e => Some (Raise e)
                  | Ok r' => Some (Ok (r', sent'))
                  end
              end
          end
      end
  end.

(** The [for] loop of [main] over the trends. *)
Fixpoint main_loop (fuel : nat) (trends : list json)
    (state : report * list request) : option (exc (report * list request)) :=
  match trends with
  | [] => Some (Ok state)
  | trend :: rest =>
      match process_trend fuel trend state with
      | None => None
      | Some (Raise e) => Some (Raise e)
      | Some (Ok state') => main_loop fuel rest state'
      end
  end.

(** The tables [main] hands to the workbook writer, given the body of the
    trend discovery response; [Ok None] when there is no trend and nothing
    is written. *)
Definition main (fuel : nat) (num_trends : Z) (trends_json : json)
    (sent : list request) : option (exc (option report)) :=
  match (trends <- Py.get trends_json "trends" (JArr []) ;;
         if negb (Py.truthy trends) then Ok None
         else match trends with
              | JArr l => Ok (Some (slice_list num_trends l))
              | JStr text => Ok (Some (slice_list num_trends (Py.chars text)))
              | _ => Raise TypeError
              end) with
  | Raise e => Some (Raise e)
  | Ok None => Some (Ok None)
  | Ok (Some trends) =>
      match main_loop fuel trends (empty_report, sent) with
      | None => None
      | Some (Raise e) => Some (Raise e)
      | Some (Ok (r, _)) => Some (Ok (Some r))
      end
  end.

End Main.

(** * The vocabulary of the properties *)

(** Every character of [s] satisfies [p]. *)
Fixpoint all_chars (p : ascii -> bool) (s : string) : bool :=
  match s with
  | EmptyString => true
  | String c t => p c && all_chars p t
  end.

(** [s] without the characters of [members]. *)
Fixpoint without_chars (members : list ascii) (s : string) : string :=
  match s with
  | EmptyString => EmptyString
  | String c t =>
      if Re.in_class members c then without_chars members t
      else String c (without_chars members t)
  end.

(** A character a sheet name may hold. *)
Definition legal_sheet_char (c : ascii) : bool :=
  negb (Re.in_class illegal_sheet_chars c).

(** [canonicalUrl] is absent or empty. *)
Definition no_canonical_url (article : pydict) : Prop :=
  match Py.lookup "canonicalUrl" article with
  | None => True
  | Some u => Py.truthy u = false
  end.

(** The value of [entry.get('id')]. *)
Definition entry_id (entry : pydict) : json := Py.dict_get entry "id" JNull.

(** What the specification says of the categories: which ones an article
    with the given [businessEvents] and [commonTopics] entries gets. *)
Definition contributed (events topics : list pydict) (category : string) : Prop :=
  (category = "Regulatory"
   /\ exists be, In be events
        /\ (entry_id be = JStr "nlp/f/businessEvent/regulatory-changes"
            \/ entry_id be = JStr "nlp/f/businessEvent/regulatory-approvals"))
  \/ (category = "Conferences"
      /\ exists be, In be events
           /\ entry_id be = JStr "nlp/f/businessEvent/participation-in-an-event")
  \/ (category = "Expert Mentions"
      /\ exists topic, In topic topics /\ entry_id topic = JStr "nlp/f/topic/6001").

(** The article has lists of dicts under [businessEvents] and
    [commonTopics] (an absent key stands for the empty list). *)
Definition has_entries (article : pydict) (events topics : list pydict) : Prop :=
  Py.dict_get article "businessEvents" (JArr []) = JArr (map JObj events)
  /\ Py.dict_get article "commonTopics" (JArr []) = JArr (map JObj topics).

(** The categories of a [businessEvents] entry that is a dict. *)
Definition event_cats (be : pydict) : list string :=
  app (if Py.in_strs (entry_id be) regulatory_ids then ["Regulatory"] else [])
      (if Py.eq (entry_id be) (JStr conference_id) then ["Conferences"] else []).

(** The categories of a [commonTopics] entry that is a dict. *)
Definition topic_cats (topic : pydict) : list string :=
  if Py.eq (entry_id topic) (JStr expert_id) then ["Expert Mentions"] else [].

(** The article of the example: one regulatory event, one expert topic. *)
Definition regulatory_expert_article : pydict :=
  [("businessEvents",
    JArr [JObj [("id", JStr "nlp/f/businessEvent/regulatory-changes")]]);
   ("commonTopics", JArr [JObj [("id", JStr "nlp/f/topic/6001")]])].

(** A character an integer literal may hold: white space, a digit, a sign
    or an underscore. *)
Definition numeric_char (c : ascii) : bool :=
  DateTime.is_int_space c || DateTime.is_digit c
  || Ascii.eqb c "+" || Ascii.eqb c "-" || Ascii.eqb c "_".

(** The number two decimal digits spell, and the number four of them
    spell. *)
Definition read_digits2 (a b : ascii) : option Z :=
  if DateTime.is_digit a && DateTime.is_digit b
  then Some (DateTime.digit_value a * 10 + DateTime.digit_value b)%Z
  else None.

Definition read_digits4 (a b c d : ascii) : option Z :=
  match read_digits2 a b, read_digits2 c d with
  | Some high, Some low => Some (high * 100 + low)%Z
  | _, _ => None
  end.

(** The format [YYYY-MM-DD HH:MM:SS] of a timestamp, read back: a text of
    19 characters with digits at the places of the letters gives the six
    numbers it spells; any other text gives nothing.  It is written from the
    format alone, not from [DateTime.strftime]. *)
Definition read_timestamp (text : string) : option DateTime.datetime :=
  match text with
  | String y1 (String y2 (String y3 (String y4 (String s1
    (String m1 (String m2 (String s2
    (String d1 (String d2 (String s3
    (String h1 (String h2 (String s4
    (String n1 (String n2 (String s5
    (String c1 (String c2 EmptyString)))))))))))))))))) =>
      if Ascii.eqb s1 "-" && Ascii.eqb s2 "-" && Ascii.eqb s3 " "
         && Ascii.eqb s4 ":" && Ascii.eqb s5 ":"
      then
        match read_digits4 y1 y2 y3 y4, read_digits2 m1 m2, read_digits2 d1 d2,
              read_digits2 h1 h2, read_digits2 n1 n2, read_digits2 c1 c2 with
        | Some y, Some m, Some d, Some h, Some n, Some c =>
            Some {| DateTime.year := y; DateTime.month := m; DateTime.day := d;
                    DateTime.hour := h; DateTime.minute := n;
                    DateTime.second := c |}
        | _, _, _, _, _, _ => None
        end
      else None
  | _ => None
  end.

(** [n] times the character [0]. *)
Fixpoint zeros (n : nat) : string :=
  match n with
  | O => EmptyString
  | S k => String "0" (zeros k)
  end.

(** [text] with zeros in front, up to [width] characters. *)
Definition zero_fill (width : nat) (text : string) : string :=
  (zeros (width - String.length text) ++ text)%string.

(** [text] starts with the digit 0. *)
Definition leading_zero (text : string) : bool :=
  match text with
  | String c _ => Ascii.eqb c "0"
  | EmptyString => false
  end.

(** The text of a date and time with the year on four digits. *)
Definition padded (dt : DateTime.datetime) : string :=
  (DateTime.pad4 (DateTime.year dt) ++ "-" ++ DateTime.pad2 (DateTime.month dt)
   ++ "-" ++ DateTime.pad2 (DateTime.day dt) ++ " "
   ++ DateTime.pad2 (DateTime.hour dt) ++ ":"
   ++ DateTime.pad2 (DateTime.minute dt) ++ ":"
   ++ DateTime.pad2 (DateTime.second dt))%string.

(** [>] occurs in [s]. *)
Fixpoint has_gt (s : string) : bool :=
  match s with
  | EmptyString => false
  | String c t => Ascii.eqb c ">" || has_gt t
  end.

(** [s] starts with [>]. *)
Definition starts_gt (s : string) : bool :=
  match s with
  | String c _ => Ascii.eqb c ">"
  | EmptyString => false
  end.

(** No tag starts anywhere in [s]: after every [<] comes [>] at once, or no
    [>] at all. *)
Fixpoint tag_free (s : string) : bool :=
  match s with
  | EmptyString => true
  | String c t =>
      (negb (Ascii.eqb c "<") || starts_gt t || negb (has_gt t)) && tag_free t
  end.

(** [c] is [<] or [>]. *)
Definition bracket (c : ascii) : bool := Ascii.eqb c "<" || Ascii.eqb c ">".

(** [softer s out]: [out] is [s] where some characters other than [<] and
    [>] were deleted or replaced by characters other than [<] and [>]. *)
Inductive softer : string -> string -> Prop :=
| softer_nil : softer EmptyString EmptyString
| softer_keep c s out : softer s out -> softer (String c s) (String c out)
| softer_change c d s out :
    bracket c = false -> bracket d = false -> softer s out ->
    softer (String c s) (String d out)
| softer_drop c s out :
    bracket c = false -> softer s out -> softer (String c s) out.

(** A tag: [<], at least one character other than [>], and [>]. *)
Definition is_tag (s : string) : Prop :=
  exists body,
    s = String "<" (body ++ ">") /\ body <> "" /\ has_gt body = false.

Local Open Scope list_scope.

(** The body [data] of a response is a dict whose [items] can be iterated
    and give [items]; [token] is its [continuation], [None] when absent. *)
Definition page_of (data : json) (items : list json) (token : json) : Prop :=
  exists d,
    data = JObj d
    /\ Py.iter (Py.dict_get d "items" (JArr [])) = Ok items
    /\ Py.dict_get d "continuation" JNull = token.

(** The state of the loop after a page that does not end it. *)
Definition next_state (st : loop_state) (items : list json) (token : json)
  : loop_state :=
  {| all_items := all_items st ++ items;
     continuation := token;
     last_continuation := continuation st;
     page := S (page st) |}.

(** The state after several such pages, each given by its items and its
    token. *)
Fixpoint state_after (st : loop_state) (pages : list (list json * json))
  : loop_state :=
  match pages with
  | [] => st
  | (items, token) :: rest => state_after (next_state st items token) rest
  end.

(** The token of the last page, [previous] when there is no page. *)
Definition last_token (previous : json) (pages : list (list json * json)) : json :=
  last (map snd pages) previous.

(** The requests of the loop for several pages that do not end it. *)
Fixpoint sent_after (api_key : string) (aliases : list json)
    (newer_than : option Z) (sent : list request) (st : loop_state)
    (pages : list (list json * json)) : list request :=
  match pages with
  | [] => sent
  | (items, token) :: rest =>
      sent_after api_key aliases newer_than
        (sent ++ [page_request api_key aliases newer_than st])
        (next_state st items token) rest
  end.

(** The service answers the requests of the loop with [pages], one after
    the other, and each of them makes the loop go on: its token is not
    falsy and is not the token of the page before. *)
Fixpoint feeds (post : list request -> request -> exc json) (api_key : string)
    (aliases : list json) (newer_than : option Z) (sent : list request)
    (st : loop_state) (pages : list (list json * json)) : Prop :=
  match pages with
  | [] => True
  | (items, token) :: rest =>
      (exists data,
          post sent (page_request api_key aliases newer_than st) = Ok data
          /\ page_of data items token)
      /\ Py.truthy token = true
      /\ Py.eq token (continuation st) = false
      /\ feeds post api_key aliases newer_than
           (sent ++ [page_request api_key aliases newer_than st])
           (next_state st items token) rest
  end.

(** The request that carries [token], or no token. *)
Definition request_with (api_key : string) (aliases : list json)
    (newer_than : option Z) (token : option json) : request :=
  {| rq_api_key := api_key; rq_texts := aliases; rq_newer_than := newer_than;
     rq_continuation := token |}.

(** The condition to stop as the specification words it: the body has no
    [continuation], or its [continuation] is the token of the page before. *)
Definition spec_stop (data previous : json) : Prop :=
  match data with
  | JObj d =>
      Py.lookup "continuation" d = None
      \/ Py.lookup "continuation" d = Some previous
  | _ => False
  end.

(** A service whose first page carries the token ["t1"] and whose later
    pages carry an empty token. *)
Definition first_page : json :=
  JObj [("items", JArr [JStr "a1"]); ("continuation", JStr "t1")].
Definition empty_token_page : json :=
  JObj [("items", JArr [JStr "a2"]); ("continuation", JStr "")].
Definition empty_token_service (sent : list request) (_ : request) : exc json :=
  match sent with
  | [] => Ok first_page
  | _ => Ok empty_token_page
  end.

(** A service with two pages of results, the second without a token. *)
Definition last_page : json := JObj [("items", JArr [JStr "a2"; JStr "a3"])].
Definition two_page_service (sent : list request) (_ : request) : exc json :=
  match sent with
  | [] => Ok first_page
  | _ => Ok last_page
  end.

(** A service that fails from the second request on. *)
Definition failing_service (sent : list request) (_ : request) : exc json :=
  match sent with
  | [] => Ok first_page
  | _ => Raise RequestException
  end.



(** The scenario of the specification: one trend with two aliases, one page
    with two articles, the first with a regulatory event. *)
Definition scenario_trend : json :=
  JObj [("label", JStr "X"); ("aliases", JArr [JStr "foo"; JStr "bar"])].

Definition scenario_page : json :=
  JObj [("items",
         JArr [JObj [("id", JStr "1");
                     ("businessEvents",
                      JArr [JObj [("id", JStr "nlp/f/businessEvent/regulatory-changes")]])];
               JObj [("id", JStr "2"); ("canonicalUrl", JStr "https://a.example/2")]])].

Definition scenario_service (_ : list request) (_ : request) : exc json :=
  Ok scenario_page.

Definition scenario_report : report :=
  {| summary_rows :=
       [{| sr_aliases := "foo, bar"; sr_total := 2; sr_regulatory := 1;
           sr_expert := 0; sr_conferences := 0 |}];
     trend_data :=
       [("foo"%string,
         [{| dr_id := JStr "1"; dr_title := JStr ""; dr_crawled := "";
             dr_url := JStr ""; dr_content := ""; dr_type := "Regulatory" |};
          {| dr_id := JStr "2"; dr_title := JStr ""; dr_crawled := "";
             dr_url := JStr "https://a.example/2"; dr_content := "";
             dr_type := "" |}])] |}.

(** A trend without aliases whose label is empty once trimmed. *)
Definition no_search_term (trend : json) : Prop :=
  exists d label,
    trend = JObj d
    /\ Py.iter (Py.dict_get d "aliases" (JArr [])) = Ok []
    /\ Py.dict_get d "label" (JStr "") = JStr label
    /\ PyStr.strip label = ""%string.

Definition blank_trend : json :=
  JObj [("label", JStr "  "); ("aliases", JArr [])].

(** ** Vocabulary of the further properties *)

(** The character [a] occurs in [s]. *)
Fixpoint has_char (a : ascii) (s : string) : bool :=
  match s with
  | EmptyString => false
  | String c t => Ascii.eqb c a || has_char a t
  end.

(** Each token differs from the one before it, [previous] coming first. *)
Fixpoint fresh_chain (previous : json) (tokens : list json) : Prop :=
  match tokens with
  | [] => True
  | token :: rest => Py.eq token previous = false /\ fresh_chain token rest
  end.

(** A service whose pages carry the token ["b"] in answer to the token
    ["a"] and the token ["a"] in answer to anything else. *)
Definition flip_service (_ : list request) (req : request) : exc json :=
  let sent_a :=
    match rq_continuation req with
    | Some token => Py.eq token (JStr "a")
    | None => false
    end in
  Ok (JObj [("items", JArr [JStr "x"]);
            ("continuation", if sent_a then JStr "b" else JStr "a")]).

(** The rows whose [type] mentions [label]. *)
Definition counted (label : string) (rows : list detail_row) : nat :=
  length (filter (fun row => PyStr.contains label (dr_type row)) rows).

(** A summary row and the sheet that goes with it: the sheet has rows, the
    counts of the summary row are counts of rows of the sheet, and the name
    of the sheet comes from the first of the aliases the summary row
    lists. *)
Definition sound_pair (row : summary_row) (sheet : string * list detail_row)
  : Prop :=
  snd sheet <> []
  /\ sr_total row = length (snd sheet)
  /\ sr_regulatory row = counted "Regulatory" (snd sheet)
  /\ sr_expert row = counted "Expert Mentions" (snd sheet)
  /\ sr_conferences row = counted "Conferences" (snd sheet)
  /\ exists first others,
       sr_aliases row = PyStr.join ", " (first :: others)
       /\ fst sheet = sanitize_sheet_name first.

(** A trend that has nothing but the alias [text]. *)
Definition single_alias_trend (text : string) : json :=
  JObj [("aliases", JArr [JStr text])].

(** A service with one page of results, whose second article has a string
    where the first [alternate] entry should be. *)
Definition bad_article_page : json :=
  JObj [("items",
         JArr [JObj [("id", JStr "1")];
               JObj [("id", JStr "2"); ("alternate", JArr [JStr "href"])]])].

Definition bad_article_service (_ : list request) (_ : request) : exc json :=
  Ok bad_article_page.

(** The field [key] of the article gives no text: it is absent or falsy,
    or it is a dict whose [content] is absent or falsy. *)
Definition no_nested_text (article : pydict) (key : string) : Prop :=
  Py.truthy (Py.dict_get article key JNull) = false
  \/ exists inner,
       Py.dict_get article key JNull = JObj inner
       /\ Py.truthy (Py.dict_get inner "content" JNull) = false.

Local Open Scope string_scope.

(** * Properties *)

(** ** Sheet names *)

Lemma sub_class_without members s :
  Re.sub (Re.match_class members) "" s = without_chars members s.
Proof.
  unfold Re.sub.
  induction s as [|c t IH]; simpl; [reflexivity|].
  destruct (Re.in_class members c); simpl; rewrite IH; reflexivity.
Qed.

Lemma without_chars_legal members s :
  all_chars (fun c => negb (Re.in_class members c)) s = true ->
  without_chars members s = s.
Proof.
  induction s as [|c t IH]; simpl; [reflexivity|].
  intros H. apply andb_prop in H as [Hc Ht].
  apply negb_true_iff in Hc. rewrite Hc, IH by assumption. reflexivity.
Qed.

Lemma without_chars_clean members s :
  all_chars (fun c => negb (Re.in_class members c)) (without_chars members s) = true.
Proof.
  induction s as [|c t IH]; simpl; [reflexivity|].
  destruct (Re.in_class members c) eqn:E; simpl; [assumption|].
  rewrite E, IH. reflexivity.
Qed.

Lemma slice_to_length n s :
  String.length (PyStr.slice_to n s) = Nat.min n (String.length s).
Proof.
  revert s; induction n as [|n IH]; intros [|c t]; simpl; auto.
Qed.

(** C9. [sanitize_sheet_name] deletes every occurrence of the characters
    [[ ] : * ? / \] and keeps the first 31 characters of what is left: the
    name ["A/B:C*D?"] becomes ["ABCD"], and a name of 40 characters none of
    which is illegal becomes its first 31 characters. *)
Theorem sanitize_sheet_name_spec :
  (forall name,
      sanitize_sheet_name name
      = PyStr.slice_to 31 (without_chars illegal_sheet_chars name))
  /\ sanitize_sheet_name "A/B:C*D?" = "ABCD"
  /\ (forall name,
         String.length name = 40 ->
         all_chars legal_sheet_char name = true ->
         sanitize_sheet_name name = PyStr.slice_to 31 name
         /\ String.length (sanitize_sheet_name name) = 31).
Proof.
  split; [|split].
  - intros name. unfold sanitize_sheet_name. rewrite sub_class_without. reflexivity.
  - reflexivity.
  - intros name Hlen Hlegal. unfold sanitize_sheet_name.
    rewrite sub_class_without, (without_chars_legal _ _ Hlegal).
    split; [reflexivity|]. rewrite slice_to_length, Hlen. reflexivity.
Qed.

Lemma sanitize_sheet_name_spec_witness :
  sanitize_sheet_name "Quarterly regulatory approvals in Europe"
  = "Quarterly regulatory approvals ".
Proof.
  destruct sanitize_sheet_name_spec as (_ & _ & H).
  destruct (H "Quarterly regulatory approvals in Europe") as [E _];
    [reflexivity | reflexivity |].
  rewrite E. reflexivity.
Defined.

(** ** URL extraction *)

Lemma extract_url_no_canonical article :
  no_canonical_url article ->
  extract_url article =
    let alternates := Py.dict_get article "alternate" (JArr []) in
    match alternates with
    | JArr (first :: _) => Py.get first "href" (JStr "")
    | _ => Ok (JStr "")
    end.
Proof.
  unfold no_canonical_url, extract_url, Py.has_key, Py.dict_get.
  destruct (Py.lookup "canonicalUrl" article) as [u|]; simpl.
  - intros ->. simpl.
    destruct (Py.lookup "alternate" article) as [[| | | |[|]|[|]]|];
      simpl; try reflexivity; rewrite andb_false_r; reflexivity.
  - intros _.
    destruct (Py.lookup "alternate" article) as [[| | | |[|]|[|]]|];
      simpl; try reflexivity; rewrite andb_false_r; reflexivity.
Qed.

(** C5. [extract_url] returns [canonicalUrl] when it is present and not
    empty, whatever [alternate] holds; without it, the [href] of the first
    entry of a non-empty [alternate]; and the empty string when [alternate]
    is not a non-empty list either. *)
Theorem extract_url_spec (article : pydict) :
  (forall u,
      Py.lookup "canonicalUrl" article = Some u -> Py.truthy u = true ->
      extract_url article = Ok u)
  /\ (forall first rest href,
         no_canonical_url article ->
         Py.lookup "alternate" article = Some (JArr (JObj first :: rest)) ->
         Py.lookup "href" first = Some href ->
         extract_url article = Ok href)
  /\ (no_canonical_url article ->
      (forall first rest,
          Py.lookup "alternate" article <> Some (JArr (first :: rest))) ->
      extract_url article = Ok (JStr "")).
Proof.
  split; [|split].
  - intros u Hu Ht. unfold extract_url, Py.has_key, Py.dict_get.
    rewrite Hu. simpl. rewrite Ht. reflexivity.
  - intros first rest href Hno Halt Hhref.
    rewrite (extract_url_no_canonical _ Hno). unfold Py.dict_get.
    rewrite Halt. simpl. unfold Py.dict_get. rewrite Hhref. reflexivity.
  - intros Hno Halt.
    rewrite (extract_url_no_canonical _ Hno). unfold Py.dict_get.
    destruct (Py.lookup "alternate" article) as [[| | | |[|first rest]|]|];
      try reflexivity.
    exfalso. apply (Halt first rest). reflexivity.
Qed.

Lemma extract_url_spec_witness :
  extract_url [("canonicalUrl", JStr "https://a.example/x");
               ("alternate", JArr [JObj [("href", JStr "https://b.example/y")]])]
  = Ok (JStr "https://a.example/x")
  /\ extract_url [("canonicalUrl", JStr "");
                  ("alternate", JArr [JObj [("href", JStr "https://b.example/y")];
                                      JObj [("href", JStr "https://c.example/z")]])]
     = Ok (JStr "https://b.example/y")
  /\ extract_url [("title", JStr "t"); ("alternate", JArr [])] = Ok (JStr "").
Proof.
  split; [|split].
  - apply (proj1 (extract_url_spec _)); reflexivity.
  - apply (proj1 (proj2 (extract_url_spec _))
             [("href", JStr "https://b.example/y")]
             [JObj [("href", JStr "https://c.example/z")]]); reflexivity.
  - apply (proj2 (proj2 (extract_url_spec _))); [reflexivity|].
    intros first rest; simpl; discriminate.
Defined.

(** C10. Without a [canonicalUrl], when [alternate] is a non-empty list whose
    first entry has no [href], [extract_url] returns the empty string: it
    does not raise, and the entries after the first are not looked at. *)
Theorem extract_url_first_without_href (article first : pydict) (rest : list json) :
  no_canonical_url article ->
  Py.lookup "alternate" article = Some (JArr (JObj first :: rest)) ->
  Py.lookup "href" first = None ->
  extract_url article = Ok (JStr "").
Proof.
  intros Hno Halt Hhref.
  rewrite (extract_url_no_canonical _ Hno). unfold Py.dict_get.
  rewrite Halt. simpl. unfold Py.dict_get. rewrite Hhref. reflexivity.
Qed.

Lemma extract_url_first_without_href_witness :
  extract_url [("alternate", JArr [JObj [("type", JStr "text/html")];
                                   JObj [("href", JStr "https://c.example/z")]])]
  = Ok (JStr "").
Proof.
  apply (extract_url_first_without_href _ [("type", JStr "text/html")]
           [JObj [("href", JStr "https://c.example/z")]]); reflexivity.
Defined.

(** ** Type classification *)

Lemma py_eq_str v s : Py.eq v (JStr s) = true <-> v = JStr s.
Proof.
  destruct v; simpl; split; try discriminate; intros H.
  - apply String.eqb_eq in H. congruence.
  - injection H as ->. apply String.eqb_refl.
Qed.

Lemma in_strs_iff v strs :
  Py.in_strs v strs = true <-> exists s, In s strs /\ v = JStr s.
Proof.
  unfold Py.in_strs. rewrite existsb_exists.
  split; intros (s & Hin & H); exists s; split; auto; apply py_eq_str; assumption.
Qed.

Lemma mapM_pure {A B : Type} (f : A -> exc B) (g : A -> B) l :
  (forall a, In a l -> f a = Ok (g a)) -> mapM f l = Ok (map g l).
Proof.
  induction l as [|a l IH]; simpl; intros H; [reflexivity|].
  rewrite (H a) by auto. simpl. rewrite IH by auto. reflexivity.
Qed.

Lemma collect_types_entries article events topics :
  has_entries article events topics ->
  collect_types article regulatory_ids expert_id conference_id
  = Ok (app (concat (map event_cats events)) (concat (map topic_cats topics))).
Proof.
  intros [Hev Htop]. unfold collect_types. rewrite Hev, Htop. simpl.
  rewrite (mapM_pure _ (fun v => match v with JObj d => event_cats d | _ => [] end)).
  2:{ intros a Ha. apply in_map_iff in Ha as (d & <- & _). reflexivity. }
  simpl.
  rewrite (mapM_pure _ (fun v => match v with JObj d => topic_cats d | _ => [] end)).
  2:{ intros a Ha. apply in_map_iff in Ha as (d & <- & _). reflexivity. }
  simpl. rewrite !map_map. reflexivity.
Qed.

Lemma in_event_cats be c :
  In c (event_cats be) <->
  (c = "Regulatory"
   /\ (entry_id be = JStr "nlp/f/businessEvent/regulatory-changes"
       \/ entry_id be = JStr "nlp/f/businessEvent/regulatory-approvals"))
  \/ (c = "Conferences"
      /\ entry_id be = JStr "nlp/f/businessEvent/participation-in-an-event").
Proof.
  unfold event_cats. rewrite in_app_iff.
  assert (Hr : Py.in_strs (entry_id be) regulatory_ids = true <->
               (entry_id be = JStr "nlp/f/businessEvent/regulatory-changes"
                \/ entry_id be = JStr "nlp/f/businessEvent/regulatory-approvals")).
  { rewrite in_strs_iff. split.
    - intros (s & [<-|[<-|[]]] & H); auto.
    - intros [H|H]; eexists; (split; [|exact H]); simpl; auto. }
  pose proof (py_eq_str (entry_id be) conference_id) as Hc.
  unfold conference_id in Hc.
  destruct (Py.in_strs (entry_id be) regulatory_ids);
    destruct (Py.eq (entry_id be) (JStr _)); simpl;
    intuition (subst; auto; try discriminate).
Qed.

Lemma in_topic_cats topic c :
  In c (topic_cats topic) <->
  c = "Expert Mentions" /\ entry_id topic = JStr "nlp/f/topic/6001".
Proof.
  unfold topic_cats.
  destruct (Py.eq (entry_id topic) (JStr expert_id)) eqn:He; simpl.
  - apply py_eq_str in He. split; [intros [<-|[]]; auto | intros [-> _]; auto].
  - split; [intros []|]. intros [_ H]. rewrite H in He. discriminate.
Qed.

Lemma in_collected events topics c :
  In c (app (concat (map event_cats events)) (concat (map topic_cats topics)))
  <-> contributed events topics c.
Proof.
  rewrite in_app_iff, !in_concat. unfold contributed. split.
  - intros [(l & Hl & Hc)|(l & Hl & Hc)]; apply in_map_iff in Hl as (e & <- & He).
    + apply in_event_cats in Hc as [[-> H]|[-> H]]; [left|right; left]; eauto.
    + apply in_topic_cats in Hc as [-> H]. right; right; eauto.
  - intros [[-> (be & Hin & H)]|[[-> (be & Hin & H)]|[-> (t & Hin & H)]]].
    + left. exists (event_cats be). split; [apply in_map; assumption|].
      apply in_event_cats. auto.
    + left. exists (event_cats be). split; [apply in_map; assumption|].
      apply in_event_cats. auto.
    + right. exists (topic_cats t). split; [apply in_map; assumption|].
      apply in_topic_cats. auto.
Qed.

Lemma enum_of_two (a b : string) l :
  a <> b -> NoDup l -> (forall x, In x l <-> In x [a; b]) ->
  l = [a; b] \/ l = [b; a].
Proof.
  intros Hab Hnd Hin.
  assert (Ha : In a l) by (apply Hin; simpl; auto).
  assert (Hb : In b l) by (apply Hin; simpl; auto).
  destruct l as [|x [|y [|z l]]].
  - destruct Ha.
  - destruct Ha as [<-|[]]. destruct Hb as [<-|[]]. congruence.
  - inversion Hnd as [|? ? Hx _]; subst.
    assert (x <> y) by (intros ->; apply Hx; simpl; auto).
    destruct (proj1 (Hin x)) as [<-|[<-|[]]]; [simpl; auto| |];
      (destruct (proj1 (Hin y)) as [<-|[<-|[]]]; [simpl; auto| |]);
      auto; congruence.
  - exfalso. inversion Hnd as [|? ? Hx Hnd']; subst.
    inversion Hnd' as [|? ? Hy _]; subst.
    assert (x <> y) by (intros ->; apply Hx; simpl; auto).
    assert (x <> z) by (intros ->; apply Hx; simpl; auto).
    assert (y <> z) by (intros ->; apply Hy; simpl; auto).
    destruct (proj1 (Hin x)) as [<-|[<-|[]]]; [simpl; auto| |];
      (destruct (proj1 (Hin y)) as [<-|[<-|[]]]; [simpl; auto| |]);
      (destruct (proj1 (Hin z)) as [<-|[<-|[]]]; [simpl; auto| |]);
      congruence.
Qed.

(** C6. Whatever the order in which a set is enumerated, [extract_type]
    returns the categories of the article joined with [", "], each once:
    [Regulatory] for a business event whose id is one of the two regulatory
    identifiers, [Conferences] for one whose id is the conference identifier,
    [Expert Mentions] for a common topic whose id is the expert identifier.
    For the article of the example the result has [Regulatory] and
    [Expert Mentions] once each, and the result is empty when the article has
    no category. *)
Theorem extract_type_spec (set_iter : list string -> list string) :
  enumerates_set set_iter ->
  (forall article events topics,
      has_entries article events topics ->
      exists categories,
        extract_type set_iter article regulatory_ids expert_id conference_id
        = Ok (PyStr.join ", " categories)
        /\ NoDup categories
        /\ (forall c, In c categories <-> contributed events topics c))
  /\ (exists result,
         extract_type set_iter regulatory_expert_article
           regulatory_ids expert_id conference_id = Ok result
         /\ PyStr.occurrences "Regulatory" result = 1
         /\ PyStr.occurrences "Expert Mentions" result = 1)
  /\ (forall article events topics,
         has_entries article events topics ->
         (forall c, ~ contributed events topics c) ->
         extract_type set_iter article regulatory_ids expert_id conference_id
         = Ok "").
Proof.
  intros Hset. split; [|split].
  - intros article events topics Hshape. unfold extract_type.
    rewrite (collect_types_entries _ _ _ Hshape). simpl.
    set (types := app _ _).
    assert (Hin : forall c, In c types <-> contributed events topics c)
      by (intros c; apply in_collected).
    destruct types as [|t types'] eqn:E.
    + exists []. split; [reflexivity|]. split; [constructor|]. exact Hin.
    + exists (set_iter (t :: types')). split; [reflexivity|].
      destruct (Hset (t :: types')) as [Hnd Hmem]. split; [exact Hnd|].
      intros c. rewrite Hmem. apply Hin.
  - unfold extract_type. simpl.
    destruct (Hset ["Regulatory"; "Expert Mentions"]) as [Hnd Hmem].
    destruct (enum_of_two "Regulatory" "Expert Mentions" _
                ltac:(discriminate) Hnd Hmem) as [-> | ->];
      eexists; (split; [reflexivity|]); split; reflexivity.
  - intros article events topics Hshape Hnone. unfold extract_type.
    rewrite (collect_types_entries _ _ _ Hshape). simpl.
    destruct (app _ _) as [|t types'] eqn:E; [reflexivity|].
    exfalso. apply (Hnone t). apply in_collected. rewrite E. simpl; auto.
Qed.

Lemma nodup_enumerates_set : enumerates_set (nodup string_dec).
Proof.
  intros l. split; [apply NoDup_nodup | intros x; apply nodup_In].
Qed.

Lemma extract_type_spec_witness :
  exists result,
    extract_type (nodup string_dec) regulatory_expert_article
      regulatory_ids expert_id conference_id = Ok result
    /\ PyStr.occurrences "Regulatory" result = 1
    /\ PyStr.occurrences "Expert Mentions" result = 1.
Proof.
  exact (proj1 (proj2 (extract_type_spec (nodup string_dec) nodup_enumerates_set))).
Defined.

(** ** Timestamps *)

Module DateTimeFacts.

Import DateTime.
Local Open Scope Z_scope.

Ltac zdiv := Z.to_euclidean_division_equations; lia.

Lemma month_day_checked leapyear :
  forallb (fun k => month_day_ok leapyear (Z.of_nat k)) (seq 0 365) = true.
Proof. destruct leapyear; vm_compute; reflexivity. Qed.

Lemma month_day_spec leapyear n :
  0 <= n < 365 ->
  let '(m, d) := month_day leapyear n in
  1 <= m <= 12
  /\ 1 <= d <= (if (m =? 2) && leapyear then 29 else DAYS_IN_MONTH m)
  /\ DAYS_BEFORE_MONTH m + (if (2 <? m) && leapyear then 1 else 0) + d = n + 1.
Proof.
  intros Hn.
  pose proof (month_day_checked leapyear) as H.
  rewrite forallb_forall in H.
  specialize (H (Z.to_nat n)).
  rewrite Z2Nat.id in H by lia.
  assert (Hin : In (Z.to_nat n) (seq 0 365)) by (apply in_seq; lia).
  specialize (H Hin). unfold month_day_ok in H.
  destruct (month_day leapyear n) as [m d].
  repeat (apply andb_prop in H as [H ?]).
  repeat match goal with
         | E : (_ <=? _) = true |- _ => apply Z.leb_le in E
         | E : (_ =? _) = true |- _ => apply Z.eqb_eq in E
         end.
  lia.
Qed.

Lemma is_leap_cycle a b c d :
  0 <= b <= 3 -> 0 <= c <= 24 -> 0 <= d <= 3 ->
  is_leap (a * 400 + 1 + b * 100 + c * 4 + d)
  = (d =? 3) && (negb (c =? 24) || (b =? 3)).
Proof.
  intros Hb Hc Hd. unfold is_leap.
  destruct (Z.eqb_spec d 3), (Z.eqb_spec c 24), (Z.eqb_spec b 3); simpl;
    repeat match goal with
           | |- context [?x =? ?y] => destruct (Z.eqb_spec x y)
           end; simpl; try reflexivity; exfalso; zdiv.
Qed.

Lemma days_before_year_cycle a b c d :
  0 <= b <= 3 -> 0 <= c <= 24 -> 0 <= d <= 3 ->
  days_before_year (a * 400 + 1 + b * 100 + c * 4 + d)
  = 146097 * a + 36524 * b + 1461 * c + 365 * d.
Proof. intros. unfold days_before_year. zdiv. Qed.

Lemma ord2ymd_month_day ordinal :
  ord2ymd ordinal =
    let n := ordinal - 1 in
    let n400 := n / 146097 in
    let n := n mod 146097 in
    let n100 := n / 36524 in
    let n := n mod 36524 in
    let n4 := n / 1461 in
    let n := n mod 1461 in
    let n1 := n / 365 in
    let n := n mod 365 in
    let year := n400 * 400 + 1 + n100 * 100 + n4 * 4 + n1 in
    if (n1 =? 4) || (n100 =? 4) then (year - 1, 12, 31)
    else
      let leapyear := (n1 =? 3) && (negb (n4 =? 24) || (n100 =? 3)) in
      (year, fst (month_day leapyear n), snd (month_day leapyear n)).
Proof.
  unfold ord2ymd, month_day, DI400Y, DI100Y, DI4Y. cbv zeta.
  destruct (_ || _); [reflexivity|].
  destruct (_ <? _); reflexivity.
Qed.

(** [ord2ymd] inverts [ymd2ord] on the ordinals of the calendar. *)
Lemma ord2ymd_spec n :
  1 <= n <= MAXORDINAL ->
  let '(y, m, d) := ord2ymd n in
  1 <= y <= 9999 /\ 1 <= m <= 12 /\ 1 <= d <= days_in_month y m
  /\ ymd2ord y m d = n.
Proof.
  unfold MAXORDINAL. intros Hn. rewrite ord2ymd_month_day. cbv zeta.
  set (n0 := n - 1).
  set (n400 := n0 / 146097). set (r400 := n0 mod 146097).
  set (n100 := r400 / 36524). set (r100 := r400 mod 36524).
  set (n4 := r100 / 1461). set (r4 := r100 mod 1461).
  set (n1 := r4 / 365). set (r1 := r4 mod 365).
  assert (H400 : n0 = 146097 * n400 + r400 /\ 0 <= r400 < 146097)
    by (subst n400 r400; zdiv).
  assert (H100 : r400 = 36524 * n100 + r100 /\ 0 <= r100 < 36524)
    by (subst n100 r100; zdiv).
  assert (H4 : r100 = 1461 * n4 + r4 /\ 0 <= r4 < 1461)
    by (subst n4 r4; zdiv).
  assert (H1 : r4 = 365 * n1 + r1 /\ 0 <= r1 < 365)
    by (subst n1 r1; zdiv).
  assert (Hn0 : n = n0 + 1) by (subst n0; lia).
  clearbody n400 r400 n100 r100 n4 r4 n1 r1 n0.
  assert (Hb : 0 <= n400 <= 24 /\ 0 <= n100 <= 4 /\ 0 <= n4 <= 24 /\ 0 <= n1 <= 4)
    by lia.
  destruct ((n1 =? 4) || (n100 =? 4)) eqn:Elast.
  - assert (Hy : exists b c,
               n400 * 400 + 1 + n100 * 100 + n4 * 4 + n1 - 1
               = n400 * 400 + 1 + b * 100 + c * 4 + 3
               /\ 0 <= b <= 3 /\ 0 <= c <= 24 /\ (c = 24 -> b = 3)
               /\ n0 + 1 = 146097 * n400 + 36524 * b + 1461 * c + 365 * 3 + 366).
    { destruct (Z.eqb_spec n100 4).
      - exists 3, 24. lia.
      - destruct (Z.eqb_spec n1 4); [|discriminate].
        exists n100, n4. lia. }
    destruct Hy as (b & c & -> & Hb3 & Hc24 & Hbc & Hord).
    unfold days_in_month, ymd2ord, days_before_month.
    rewrite is_leap_cycle, days_before_year_cycle by lia.
    replace ((3 =? 3) && (negb (c =? 24) || (b =? 3))) with true
      by (destruct (Z.eqb_spec c 24), (Z.eqb_spec b 3); simpl; auto; lia).
    change (DAYS_IN_MONTH 12) with 31. change (DAYS_BEFORE_MONTH 12) with 334.
    change (12 =? 2) with false. change (2 <? 12) with true.
    cbv [andb]. lia.
  - apply orb_false_iff in Elast as [E1 E100].
    apply Z.eqb_neq in E1, E100.
    rewrite <- (is_leap_cycle n400 n100 n4 n1) by lia.
    set (year := n400 * 400 + 1 + n100 * 100 + n4 * 4 + n1).
    pose proof (month_day_spec (is_leap year) r1 (proj2 H1)) as Hmd.
    destruct (month_day (is_leap year) r1) as [m d].
    destruct Hmd as (Hm & Hd & Hsum). cbn [fst snd].
    assert (Hdby : days_before_year year
                   = 146097 * n400 + 36524 * n100 + 1461 * n4 + 365 * n1)
      by (apply days_before_year_cycle; lia).
    unfold days_in_month, ymd2ord, days_before_month.
    split; [subst year; lia|]. split; [lia|]. split; [exact Hd|]. lia.
Qed.

(** The date and time [utcfromtimestamp_ms] builds is the one of the
    calendar that lies [ms / 1000] whole seconds from the epoch. *)
Lemma utcfromtimestamp_ms_spec ms :
  -62135596800000 <= ms < 253402300800000 ->
  exists dt,
    utcfromtimestamp_ms ms = Ok dt /\ valid dt
    /\ epoch_seconds dt = ms / 1000.
Proof.
  intros Hms. unfold utcfromtimestamp_ms, EPOCH_ORDINAL, MAXORDINAL.
  set (secs := ms / 1000).
  assert (Hsecs : -62135596800 <= secs < 253402300800) by (subst secs; zdiv).
  clearbody secs.
  set (ordinal := secs / 86400 + 719163).
  set (rest := secs mod 86400).
  assert (Hdiv : secs = 86400 * (ordinal - 719163) + rest /\ 0 <= rest < 86400)
    by (subst ordinal rest; zdiv).
  assert (Hord : 1 <= ordinal <= MAXORDINAL) by (unfold MAXORDINAL; lia).
  clearbody ordinal rest.
  destruct (Z.leb_spec 1 ordinal); [|lia].
  destruct (Z.leb_spec ordinal 3652059); [|unfold MAXORDINAL in Hord; lia].
  cbn [andb].
  pose proof (ord2ymd_spec ordinal Hord) as Hymd.
  destruct (ord2ymd ordinal) as [[y m] d].
  destruct Hymd as (Hy & Hm & Hd & Hinv).
  eexists. split; [reflexivity|].
  unfold valid, epoch_seconds, EPOCH_ORDINAL. cbn [year month day hour minute second].
  rewrite Hinv. repeat split; try lia; zdiv.
Qed.

Lemma utcfromtimestamp_ms_range ms :
  (exists dt, utcfromtimestamp_ms ms = Ok dt)
  <-> -62135596800000 <= ms < 253402300800000.
Proof.
  split.
  - intros [dt H]. unfold utcfromtimestamp_ms, EPOCH_ORDINAL, MAXORDINAL in H.
    destruct (Z.leb_spec 1 (ms / 1000 / 86400 + 719163));
      destruct (Z.leb_spec (ms / 1000 / 86400 + 719163) 3652059);
      cbn [andb] in H; try discriminate.
    zdiv.
  - intros H. destruct (utcfromtimestamp_ms_spec ms H) as (dt & E & _).
    exists dt. exact E.
Qed.

End DateTimeFacts.

Module DateTimeRead.

Import DateTime.
Local Open Scope Z_scope.

Ltac zdiv := Z.to_euclidean_division_equations; lia.

Lemma is_digit_char d : 0 <= d < 10 -> is_digit (digit_char d) = true.
Proof.
  intros Hd. unfold is_digit, digit_char.
  rewrite nat_ascii_embedding by lia.
  apply andb_true_intro. split; apply Nat.leb_le; lia.
Qed.

Lemma digit_value_char d : 0 <= d < 10 -> digit_value (digit_char d) = d.
Proof.
  intros Hd. unfold digit_value, digit_char.
  rewrite nat_ascii_embedding by lia. lia.
Qed.

Lemma read_digits2_pad n :
  0 <= n < 100 ->
  read_digits2 (digit_char (n / 10 mod 10)) (digit_char (n mod 10)) = Some n.
Proof.
  intros Hn. unfold read_digits2.
  rewrite !is_digit_char, !digit_value_char by zdiv.
  cbn [andb]. f_equal. zdiv.
Qed.

Lemma read_digits4_pad n :
  0 <= n < 10000 ->
  read_digits4 (digit_char (n / 1000 mod 10)) (digit_char (n / 100 mod 10))
    (digit_char (n / 10 mod 10)) (digit_char (n mod 10)) = Some n.
Proof.
  intros Hn. unfold read_digits4, read_digits2.
  rewrite !is_digit_char, !digit_value_char by zdiv.
  cbn [andb]. f_equal. zdiv.
Qed.

Lemma days_in_month_le y m : 1 <= m <= 12 -> days_in_month y m <= 31.
Proof.
  intros Hm. unfold days_in_month.
  destruct ((m =? 2) && is_leap y); [lia|].
  assert (m = 1 \/ m = 2 \/ m = 3 \/ m = 4 \/ m = 5 \/ m = 6 \/ m = 7
          \/ m = 8 \/ m = 9 \/ m = 10 \/ m = 11 \/ m = 12) as Hcases by lia.
  repeat destruct Hcases as [-> | Hcases]; try subst m; vm_compute; discriminate.
Qed.

(** Reading the padded text of a date and time gives it back. *)
Lemma read_padded dt : valid dt -> read_timestamp (padded dt) = Some dt.
Proof.
  intros (Hy & Hm & Hd & Hh & Hmi & Hs).
  pose proof (days_in_month_le (year dt) (month dt) Hm) as Hd31.
  destruct dt as [y m d h mi s]. cbn [year month day hour minute second] in *.
  unfold padded, pad4, pad2. cbn [year month day hour minute second append].
  unfold read_timestamp. rewrite !Ascii.eqb_refl. cbn [andb].
  rewrite read_digits4_pad by lia.
  rewrite !read_digits2_pad by lia.
  reflexivity.
Qed.

(** The text [strftime] gives is the padded one less the zeros in front. *)
Lemma zero_fill_strftime dt :
  1 <= year dt <= 9999 -> zero_fill 19 (strftime dt) = padded dt.
Proof.
  intros Hy. unfold zero_fill, strftime, padded, year_text, pad4, pad2.
  destruct (Z.ltb_spec (year dt) 10);
    [|destruct (Z.ltb_spec (year dt) 100);
      [|destruct (Z.ltb_spec (year dt) 1000)]];
    cbn [append String.length Nat.sub zeros].
  - replace (year dt / 1000 mod 10) with 0 by zdiv.
    replace (year dt / 100 mod 10) with 0 by zdiv.
    replace (year dt / 10 mod 10) with 0 by zdiv.
    reflexivity.
  - replace (year dt / 1000 mod 10) with 0 by zdiv.
    replace (year dt / 100 mod 10) with 0 by zdiv.
    reflexivity.
  - replace (year dt / 1000 mod 10) with 0 by zdiv.
    reflexivity.
  - reflexivity.
Qed.

Lemma strftime_length dt :
  1 <= year dt <= 9999 ->
  (1000 <= year dt -> String.length (strftime dt) = 19%nat)
  /\ (year dt < 1000 -> (15 < String.length (strftime dt) < 19)%nat).
Proof.
  intros Hy. unfold strftime, year_text, pad4, pad2.
  destruct (Z.ltb_spec (year dt) 10);
    [|destruct (Z.ltb_spec (year dt) 100);
      [|destruct (Z.ltb_spec (year dt) 1000)]];
    cbn [append String.length]; split; intros; lia.
Qed.

(** A text of 19 characters needs no zero in front. *)
Lemma strftime_padded dt :
  1000 <= year dt <= 9999 -> strftime dt = padded dt.
Proof.
  intros Hy. rewrite <- zero_fill_strftime by lia. unfold zero_fill.
  rewrite (proj1 (strftime_length dt ltac:(lia))) by lia. reflexivity.
Qed.

(** The days of a year before a date of the year, the date included. *)
Lemma days_in_year_le y m d :
  1 <= m <= 12 -> 1 <= d <= days_in_month y m ->
  1 <= days_before_month y m + d <= (if is_leap y then 366 else 365).
Proof.
  intros Hm Hd.
  assert (Hsum : 0 <= days_before_month y m
                 /\ days_before_month y m + days_in_month y m
                    <= (if is_leap y then 366 else 365)).
  { unfold days_before_month, days_in_month.
    assert (m = 1 \/ m = 2 \/ m = 3 \/ m = 4 \/ m = 5 \/ m = 6 \/ m = 7
            \/ m = 8 \/ m = 9 \/ m = 10 \/ m = 11 \/ m = 12) as Hcases by lia.
    destruct (is_leap y);
      repeat destruct Hcases as [-> | Hcases]; try subst m;
      split; vm_compute; discriminate. }
  lia.
Qed.

(** The dates from year 1000 on are those from -30610224000 seconds on. *)
Lemma year_1000 dt :
  valid dt -> (1000 <= year dt <-> -30610224000 <= epoch_seconds dt).
Proof.
  intros (Hy & Hm & Hd & Hh & Hmi & Hs).
  pose proof (days_in_year_le (year dt) (month dt) (day dt) Hm Hd) as Hin.
  unfold epoch_seconds, ymd2ord, EPOCH_ORDINAL.
  assert (Hlow : 1000 <= year dt -> 364877 <= days_before_year (year dt))
    by (intros; unfold days_before_year; zdiv).
  assert (Hhigh : year dt < 1000 ->
            days_before_year (year dt)
            + (if is_leap (year dt) then 366 else 365) <= 364877).
  { intros Hlt. destruct (Z.eq_dec (year dt) 999) as [E|E].
    - rewrite E. vm_compute. discriminate.
    - assert (days_before_year (year dt) <= 364147)
        by (unfold days_before_year; zdiv).
      destruct (is_leap (year dt)); lia. }
  split; intros H.
  - specialize (Hlow H). lia.
  - destruct (Z.lt_ge_cases (year dt) 1000) as [Hlt|]; [|lia].
    specialize (Hhigh Hlt). lia.
Qed.

(** With zeros in front up to 19 characters, the text reads as the date and
    time it was printed from. *)
Lemma read_strftime dt :
  valid dt -> read_timestamp (zero_fill 19 (strftime dt)) = Some dt.
Proof.
  intros Hv. rewrite zero_fill_strftime by apply Hv. apply read_padded, Hv.
Qed.

Lemma read_strftime_1000 dt :
  valid dt -> 1000 <= year dt -> read_timestamp (strftime dt) = Some dt.
Proof.
  intros Hv Hy. rewrite strftime_padded by (destruct Hv; lia).
  apply read_padded, Hv.
Qed.

Lemma digit_char_not_zero d : 1 <= d < 10 -> Ascii.eqb (digit_char d) "0" = false.
Proof.
  intros Hd. apply Ascii.eqb_neq. intros H.
  apply (f_equal nat_of_ascii) in H. unfold digit_char in H.
  rewrite nat_ascii_embedding in H by lia.
  change (nat_of_ascii "0") with 48%nat in H. lia.
Qed.

(** The year is printed from its first digit that is not 0. *)
Lemma strftime_leading dt :
  1 <= year dt <= 9999 -> leading_zero (strftime dt) = false.
Proof.
  intros Hy. unfold strftime, year_text, pad4, pad2.
  destruct (Z.ltb_spec (year dt) 10);
    [|destruct (Z.ltb_spec (year dt) 100);
      [|destruct (Z.ltb_spec (year dt) 1000)]];
    cbn [append leading_zero]; apply digit_char_not_zero; zdiv.
Qed.

(** Two dates and times with the same text are the same. *)
Lemma strftime_eq dt dt' :
  valid dt -> valid dt' -> strftime dt = strftime dt' -> dt = dt'.
Proof.
  intros Hv Hv' H.
  pose proof (read_strftime dt Hv) as R. rewrite H in R.
  rewrite (read_strftime dt' Hv') in R. congruence.
Qed.

End DateTimeRead.

Lemma all_chars_lstrip sp p s :
  (forall c, sp c = true -> p c = true) ->
  all_chars p (PyStr.lstrip_of sp s) = true -> all_chars p s = true.
Proof.
  intros Hsp. induction s as [|c t IH]; simpl; [auto|].
  destruct (sp c) eqn:E; [|auto].
  intros H. rewrite (Hsp c E), IH by assumption. reflexivity.
Qed.

Lemma all_chars_rstrip sp p s :
  (forall c, sp c = true -> p c = true) ->
  all_chars p (PyStr.rstrip_of sp s) = true -> all_chars p s = true.
Proof.
  intros Hsp. induction s as [|c t IH]; simpl; [auto|].
  destruct (PyStr.rstrip_of sp t) as [|c' t'] eqn:Et.
  - destruct (sp c) eqn:E; simpl; intros H.
    + rewrite (Hsp c E), IH by reflexivity. reflexivity.
    + apply andb_prop in H as [Hc _]. rewrite Hc, IH by reflexivity. reflexivity.
  - intros H. change (p c && all_chars p (String c' t') = true) in H.
    apply andb_prop in H as [Hc Ht]. rewrite Hc, IH by assumption. reflexivity.
Qed.

Lemma parse_digits_chars s : forall acc after n,
  DateTime.parse_digits acc after s = Some n -> all_chars numeric_char s = true.
Proof.
  induction s as [|c t IH]; simpl; intros acc after n H; [reflexivity|].
  unfold numeric_char at 1.
  destruct (DateTime.is_digit c).
  - rewrite (IH _ _ _ H), orb_true_r. reflexivity.
  - destruct (Ascii.eqb c "_"); simpl in H; [|discriminate].
    destruct after; [|discriminate].
    rewrite (IH _ _ _ H), !orb_true_r. reflexivity.
Qed.

Lemma int_of_str_chars s n :
  DateTime.int_of_str s = Ok n -> all_chars numeric_char s = true.
Proof.
  unfold DateTime.int_of_str. intros H.
  assert (Hsp : forall c, DateTime.is_int_space c = true -> numeric_char c = true)
    by (intros c E; unfold numeric_char; rewrite E; reflexivity).
  apply (all_chars_lstrip _ _ _ Hsp).
  apply (all_chars_rstrip _ _ _ Hsp).
  fold (PyStr.strip_of DateTime.is_int_space s).
  destruct (PyStr.strip_of DateTime.is_int_space s) as [|c t]; [reflexivity|].
  destruct (Ascii.eqb c "-") eqn:Em; [|destruct (Ascii.eqb c "+") eqn:Ep].
  - destruct (DateTime.parse_digits 0 false t) eqn:E; [|discriminate].
    cbn [all_chars]. unfold numeric_char at 1.
    rewrite Em, (parse_digits_chars _ _ _ _ E).
    rewrite !orb_true_r. reflexivity.
  - destruct (DateTime.parse_digits 0 false t) eqn:E; [|discriminate].
    cbn [all_chars]. unfold numeric_char at 1.
    rewrite Ep, (parse_digits_chars _ _ _ _ E).
    rewrite !orb_true_r. reflexivity.
  - destruct (DateTime.parse_digits 0 false (String c t)) eqn:E; [|discriminate].
    apply (parse_digits_chars _ _ _ _ E).
Qed.

Example date_ex1 : get_human_date (JNum 1700000000000) = "2023-11-14 22:13:20".
Proof. reflexivity. Qed.
Example date_ex2 : get_human_date (JNum 951782400000) = "2000-02-29 00:00:00".
Proof. reflexivity. Qed.
Example date_ex3 : get_human_date (JNum 253402300799999) = "9999-12-31 23:59:59".
Proof. reflexivity. Qed.
Example date_ex4 : get_human_date (JNum 253402300800000) = "".
Proof. reflexivity. Qed.
Example date_ex5 : get_human_date (JStr " 1_000 ") = "1970-01-01 00:00:01".
Proof. reflexivity. Qed.
Example date_ex6 : get_human_date (JNum (-1)) = "1969-12-31 23:59:59".
Proof. reflexivity. Qed.
Example date_ex7 : get_human_date (JNum 1078099199000) = "2004-02-29 23:59:59".
Proof. reflexivity. Qed.
Example date_ex8 : get_human_date (JNum 1104537599000) = "2004-12-31 23:59:59".
Proof. reflexivity. Qed.
Example date_ex9 : get_human_date (JStr "yesterday") = "".
Proof. reflexivity. Qed.
Example date_ex10 : get_human_date (JStr "12.5") = "".
Proof. reflexivity. Qed.

(** A value past the first instant of year 1000 backwards: the conversion
    succeeds, and the text has a year of three digits, so that it is not of
    the form [YYYY-MM-DD HH:MM:SS]. *)
Lemma get_human_date_year_999 :
  DateTime.utcfromtimestamp_ms (-30610224000001)
  = Ok {| DateTime.year := 999; DateTime.month := 12; DateTime.day := 31;
          DateTime.hour := 23; DateTime.minute := 59; DateTime.second := 59 |}
  /\ get_human_date (JNum (-30610224000001)) = "999-12-31 23:59:59"
  /\ read_timestamp (get_human_date (JNum (-30610224000001))) = None.
Proof. repeat split; reflexivity. Qed.

(** C7, amended. [get_human_date] reads its argument as milliseconds from
    the epoch, UTC, and prints the date and time of day of that instant.  From
    the first instant of year 1000 to the last of year 9999 the text is
    [YYYY-MM-DD HH:MM:SS]: it reads back as the calendar date and time lying
    the whole seconds of the argument after the epoch; 0 gives
    [1970-01-01 00:00:00].  For an instant of the years 1 to 999 the year is
    printed without zeros in front, so that the text is shorter than 19
    characters and reads back once the zeros are filled in.  For a missing
    value, for one that is not a number (also a string with a character no
    integer literal holds), and whenever a step of the conversion raises,
    the result is the empty string: the function returns a string for every
    argument. *)
Theorem get_human_date_spec :
  (forall ms,
      (-62135596800000 <= ms < 253402300800000)%Z ->
      exists dt,
        DateTime.valid dt
        /\ DateTime.epoch_seconds dt = (ms / 1000)%Z
        /\ read_timestamp (zero_fill 19 (get_human_date (JNum ms))) = Some dt
        /\ leading_zero (get_human_date (JNum ms)) = false
        /\ ((-30610224000000 <= ms)%Z ->
            read_timestamp (get_human_date (JNum ms)) = Some dt)
        /\ ((ms < -30610224000000)%Z ->
            (String.length (get_human_date (JNum ms)) < 19)%nat))
  /\ get_human_date (JNum 0) = "1970-01-01 00:00:00"
  /\ get_human_date (JNum 1700000000123) = "2023-11-14 22:13:20"
  /\ get_human_date (JNum (-59011459200000)) = "100-01-01 00:00:00"
  /\ (forall article,
         Py.lookup "crawled" article = None ->
         get_human_date (Py.dict_get article "crawled" (JStr "")) = "")
  /\ get_human_date JNull = ""
  /\ (forall text,
         all_chars numeric_char text = false -> get_human_date (JStr text) = "")
  /\ (forall v e, DateTime.int v = Raise e -> get_human_date v = "")
  /\ (forall v ms e,
         DateTime.int v = Ok ms -> DateTime.utcfromtimestamp_ms ms = Raise e ->
         get_human_date v = "")
  /\ (forall v,
         get_human_date v = ""
         \/ exists ms dt,
             DateTime.int v = Ok ms /\ DateTime.utcfromtimestamp_ms ms = Ok dt
             /\ DateTime.valid dt
             /\ DateTime.epoch_seconds dt = (ms / 1000)%Z
             /\ read_timestamp (zero_fill 19 (get_human_date v)) = Some dt
             /\ leading_zero (get_human_date v) = false).
Proof.
  repeat apply conj.
  - intros ms Hms.
    destruct (DateTimeFacts.utcfromtimestamp_ms_spec ms Hms) as (dt & E & Hv & Hs).
    assert (Htext : get_human_date (JNum ms) = DateTime.strftime dt)
      by (unfold get_human_date; cbn [bind DateTime.int]; rewrite E; reflexivity).
    pose proof (DateTimeRead.year_1000 dt Hv) as Hyear.
    pose proof (DateTimeRead.strftime_length dt (proj1 Hv)) as [_ Hshort].
    exists dt. rewrite Htext.
    split; [exact Hv|]. split; [exact Hs|].
    split; [apply DateTimeRead.read_strftime, Hv|].
    split; [apply DateTimeRead.strftime_leading, Hv|].
    split.
    + intros Hlow. apply DateTimeRead.read_strftime_1000; [exact Hv|].
      apply Hyear. rewrite Hs. Z.to_euclidean_division_equations; lia.
    + intros Hlow. apply Hshort.
      destruct (Z.lt_ge_cases (DateTime.year dt) 1000) as [Hlt|Hge]; [exact Hlt|].
      apply Hyear in Hge. rewrite Hs in Hge.
      Z.to_euclidean_division_equations; lia.
  - reflexivity.
  - reflexivity.
  - reflexivity.
  - intros article H. unfold Py.dict_get. rewrite H. reflexivity.
  - reflexivity.
  - intros text H. unfold get_human_date. simpl.
    destruct (DateTime.int_of_str text) as [n|e] eqn:E; [|reflexivity].
    apply int_of_str_chars in E. congruence.
  - intros v e H. unfold get_human_date. rewrite H. reflexivity.
  - intros v ms e Hv Hms. unfold get_human_date. rewrite Hv. simpl.
    rewrite Hms. reflexivity.
  - intros v. unfold get_human_date.
    destruct (DateTime.int v) as [ms|e] eqn:Ev; cbn [bind]; [|left; reflexivity].
    destruct (DateTime.utcfromtimestamp_ms ms) as [dt|e] eqn:Ems; cbn [bind];
      [|left; reflexivity].
    right. exists ms, dt.
    assert (Hr : (-62135596800000 <= ms < 253402300800000)%Z)
      by (apply DateTimeFacts.utcfromtimestamp_ms_range; eauto).
    destruct (DateTimeFacts.utcfromtimestamp_ms_spec ms Hr) as (dt' & E' & Hv & Hs).
    rewrite Ems in E'. injection E' as <-.
    split; [reflexivity|]. split; [exact Ems|].
    split; [exact Hv|]. split; [exact Hs|].
    split; [apply DateTimeRead.read_strftime, Hv|].
    apply DateTimeRead.strftime_leading, Hv.
Qed.

Lemma get_human_date_spec_witness :
  (exists dt,
      DateTime.valid dt
      /\ DateTime.epoch_seconds dt = (1700000000123 / 1000)%Z
      /\ read_timestamp (get_human_date (JNum 1700000000123)) = Some dt)
  /\ (exists dt,
         DateTime.valid dt
         /\ DateTime.epoch_seconds dt = (-30610224000001 / 1000)%Z
         /\ read_timestamp (zero_fill 19 (get_human_date (JNum (-30610224000001))))
            = Some dt
         /\ leading_zero (get_human_date (JNum (-30610224000001))) = false
         /\ (String.length (get_human_date (JNum (-30610224000001))) < 19)%nat)
  /\ get_human_date (Py.dict_get [("id", JStr "a1")] "crawled" (JStr "")) = ""
  /\ get_human_date (JStr "next week") = ""
  /\ get_human_date (JArr []) = ""
  /\ get_human_date (JStr "253402300800000") = "".
Proof.
  destruct get_human_date_spec
    as (Hfmt & _ & _ & _ & Hmiss & _ & Htext & Hint & Hrange & _).
  split; [|split; [|split; [|split; [|split]]]].
  - destruct (Hfmt 1700000000123%Z ltac:(lia)) as (dt & Hv & Hs & _ & _ & Hr & _).
    exists dt. split; [exact Hv|]. split; [exact Hs|]. apply Hr. lia.
  - destruct (Hfmt (-30610224000001)%Z ltac:(lia))
      as (dt & Hv & Hs & Hr & Hz & _ & Hlen).
    exists dt. split; [exact Hv|]. split; [exact Hs|]. split; [exact Hr|].
    split; [exact Hz|]. apply Hlen. lia.
  - apply Hmiss. reflexivity.
  - apply Htext. reflexivity.
  - apply (Hint _ TypeError). reflexivity.
  - apply (Hrange _ 253402300800000%Z ValueError); reflexivity.
Defined.

(** ** Tag stripping *)

Lemma char_at_span s :
  Re.char_at (Re.span_len not_gt s) s
  = if has_gt s then Some ">"%char else None.
Proof.
  induction s as [|c t IH]; simpl; [reflexivity|].
  unfold not_gt at 1.
  destruct (Ascii.eqb_spec c ">"%char) as [->|]; simpl; [reflexivity|exact IH].
Qed.

Lemma match_body_none s :
  match_body s = None <-> starts_gt s = true \/ has_gt s = false.
Proof.
  unfold match_body. cbv zeta.
  pose proof (char_at_span s) as Hat.
  destruct (Re.span_len not_gt s) as [|n] eqn:E.
  - split; [intros _|reflexivity].
    destruct s as [|c t]; [right; reflexivity|]. simpl in E |- *.
    unfold not_gt in E. destruct (Ascii.eqb c ">"%char); [auto|discriminate].
  - rewrite Hat.
    assert (Hs : starts_gt s = false).
    { destruct s as [|c t]; [reflexivity|]. simpl in E |- *.
      unfold not_gt in E. destruct (Ascii.eqb c ">"%char); [discriminate|reflexivity]. }
    rewrite Hs. destruct (has_gt s); intuition discriminate.
Qed.

Lemma match_RE_STRIP_none c t :
  match_RE_STRIP (String c t) = None
  <-> Ascii.eqb c "<"%char = false \/ starts_gt t = true \/ has_gt t = false.
Proof.
  unfold match_RE_STRIP.
  destruct (Ascii.eqb c "<"%char); [|intuition].
  assert (Hmap : forall u, option_map S (match_body u) = None
                           <-> starts_gt u = true \/ has_gt u = false).
  { intros u. rewrite <- match_body_none.
    destruct (match_body u); simpl; intuition discriminate. }
  destruct t as [|d t']; [simpl; intuition|].
  destruct (Ascii.eqb_spec d "/"%char) as [->|]; [|rewrite Hmap; intuition discriminate].
  destruct (match_body t') as [n|] eqn:E.
  - split; [discriminate|]. intros [H|[H|H]]; try discriminate.
    simpl in H. assert (match_body t' = None) by (apply match_body_none; auto).
    congruence.
  - rewrite Hmap. intuition discriminate.
Qed.

(** [tag_free] says that [re.search(RE_STRIP, s)] finds nothing. *)
Lemma tag_free_search s : tag_free s = negb (Re.search match_RE_STRIP s).
Proof.
  induction s as [|c t IH]; [reflexivity|].
  simpl tag_free. cbn [Re.search].
  destruct (match_RE_STRIP (String c t)) as [n|] eqn:E.
  - destruct (Ascii.eqb c "<"%char) eqn:Ec; simpl.
    + destruct (starts_gt t) eqn:Es; simpl;
        [|destruct (has_gt t) eqn:Eh; simpl; [reflexivity|]].
      all: assert (match_RE_STRIP (String c t) = None)
        by (apply match_RE_STRIP_none; auto); congruence.
    + assert (match_RE_STRIP (String c t) = None)
        by (apply match_RE_STRIP_none; auto). congruence.
  - apply match_RE_STRIP_none in E. rewrite <- IH.
    destruct E as [-> | [-> | ->]]; simpl; rewrite ?orb_true_r; reflexivity.
Qed.

Arguments match_RE_STRIP : simpl never.

Lemma has_gt_app a b : has_gt (a ++ b) = has_gt a || has_gt b.
Proof.
  induction a as [|c t IH]; simpl; [reflexivity|].
  rewrite IH, orb_assoc. reflexivity.
Qed.

(** What [re.sub(RE_STRIP, ' ', s)] leaves has no [>] that [s] has not. *)
Lemma sub_has_gt s : forall skip,
  has_gt s = false -> has_gt (Re.sub_from match_RE_STRIP " " skip s) = false.
Proof.
  induction s as [|c t IH]; intros skip H; simpl; [reflexivity|].
  simpl in H. apply orb_false_iff in H as [Hc Ht].
  destruct skip as [|k]; [|apply IH; exact Ht].
  destruct (match_RE_STRIP (String c t)); simpl.
  - apply IH; exact Ht.
  - rewrite Hc. apply IH; exact Ht.
Qed.

Lemma sub_starts_gt s :
  starts_gt s = true -> starts_gt (Re.sub match_RE_STRIP " " s) = true.
Proof.
  destruct s as [|c t]; simpl; [discriminate|]. intros H.
  apply Ascii.eqb_eq in H. subst c. reflexivity.
Qed.

(** After [re.sub(RE_STRIP, ' ', s)] the pattern matches nowhere. *)
Lemma sub_tag_free s : forall skip,
  tag_free (Re.sub_from match_RE_STRIP " " skip s) = true.
Proof.
  induction s as [|c t IH]; intros skip; simpl; [reflexivity|].
  destruct skip as [|k]; [|apply IH].
  destruct (match_RE_STRIP (String c t)) as [n|] eqn:E.
  - simpl. apply IH.
  - simpl. rewrite IH, andb_true_r.
    apply match_RE_STRIP_none in E. destruct E as [-> | [E | E]].
    + reflexivity.
    + fold (Re.sub match_RE_STRIP " " t). rewrite (sub_starts_gt _ E).
      rewrite orb_true_r. reflexivity.
    + rewrite (sub_has_gt _ _ E), orb_true_r. reflexivity.
Qed.

Lemma softer_refl s : softer s s.
Proof. induction s; constructor; assumption. Qed.

Lemma softer_has_gt s out :
  softer s out -> has_gt s = false -> has_gt out = false.
Proof.
  induction 1 as [|c s out _ IH|c d s out Hc Hd _ IH|c s out Hc _ IH];
    simpl; intros H; try reflexivity;
    apply orb_false_iff in H as [H1 H2]; auto.
  - rewrite H1. auto.
  - unfold bracket in Hd. apply orb_false_iff in Hd as [_ ->]. auto.
Qed.

Lemma softer_starts_gt s out :
  softer s out -> starts_gt s = true -> starts_gt out = true.
Proof.
  destruct 1 as [|c s out _|c d s out Hc _ _|c s out Hc _]; simpl; auto;
    intros H; unfold bracket in Hc; rewrite H, orb_true_r in Hc; discriminate.
Qed.

(** Deleting or changing characters other than the brackets creates no
    tag. *)
Lemma softer_tag_free s out :
  softer s out -> tag_free s = true -> tag_free out = true.
Proof.
  induction 1 as [|c s out Hs IH|c d s out Hc Hd Hs IH|c s out Hc Hs IH];
    simpl; intros H; try reflexivity;
    apply andb_prop in H as [H1 H2].
  - rewrite (IH H2), andb_true_r.
    apply orb_prop in H1 as [H1|H1]; [apply orb_prop in H1 as [H1|H1]|].
    + rewrite H1. reflexivity.
    + rewrite (softer_starts_gt _ _ Hs H1), orb_true_r. reflexivity.
    + apply negb_true_iff in H1. rewrite (softer_has_gt _ _ Hs H1).
      rewrite orb_true_r. reflexivity.
  - rewrite (IH H2), andb_true_r.
    unfold bracket in Hd. apply orb_false_iff in Hd as [-> _]. reflexivity.
  - auto.
Qed.

Lemma isspace_not_bracket c : PyStr.isspace c = true -> bracket c = false.
Proof.
  destruct c as [[] [] [] [] [] [] [] []]; vm_compute; congruence.
Qed.

Lemma softer_lstrip s : softer s (PyStr.lstrip_of PyStr.isspace s).
Proof.
  induction s as [|c t IH]; simpl; [constructor|].
  destruct (PyStr.isspace c) eqn:E; [|apply softer_refl].
  apply softer_drop; [apply isspace_not_bracket; exact E | exact IH].
Qed.

Lemma softer_rstrip s : softer s (PyStr.rstrip_of PyStr.isspace s).
Proof.
  induction s as [|c t IH]; simpl; [constructor|].
  destruct (PyStr.rstrip_of PyStr.isspace t) as [|c' t'].
  - destruct (PyStr.isspace c) eqn:E.
    + apply softer_drop; [apply isspace_not_bracket; exact E | exact IH].
    + apply softer_keep. exact IH.
  - apply softer_keep. exact IH.
Qed.

(** [s.replace(a, ' ')] for a character [a] other than the brackets. *)
Lemma softer_replace_char a s :
  bracket a = false -> softer s (PyStr.replace (String a "") " " s).
Proof.
  intros Ha. unfold PyStr.replace.
  induction s as [|c t IH]; simpl; [constructor|].
  destruct (Ascii.eqb_spec a c) as [<-|]; simpl.
  - destruct t; apply softer_change; auto.
  - apply softer_keep. exact IH.
Qed.

(** [s.replace('  ', ' ')]: of two spaces the second is deleted. *)
Lemma softer_collapse s : forall skip,
  skip = 0 \/ (skip = 1 /\ exists t, s = String " " t) ->
  softer s (PyStr.replace_from "  " " " skip s).
Proof.
  induction s as [|c t IH]; intros skip Hskip; [destruct skip; constructor|].
  cbn [PyStr.replace_from].
  destruct Hskip as [-> | [-> (t' & Ht')]].
  - cbn [PyStr.drop_prefix].
    destruct (Ascii.eqb_spec " "%char c) as [<-|]; [|apply softer_keep; auto].
    destruct t as [|d t']; [apply softer_keep; auto|].
    destruct (Ascii.eqb_spec " "%char d) as [<-|]; [|apply softer_keep; auto].
    cbn [String.length Nat.sub append].
    apply softer_keep. apply IH. right. eauto.
  - injection Ht' as -> ->. apply softer_drop; [reflexivity|]. apply IH. auto.
Qed.

Lemma strip_markup_tag_free html : tag_free (strip_markup html) = true.
Proof.
  unfold strip_markup, PyStr.strip, PyStr.strip_of.
  eapply softer_tag_free; [apply softer_rstrip|].
  eapply softer_tag_free; [apply softer_lstrip|].
  eapply softer_tag_free; [apply softer_collapse; auto|].
  eapply softer_tag_free; [apply softer_replace_char; reflexivity|].
  eapply softer_tag_free; [apply softer_replace_char; reflexivity|].
  apply sub_tag_free.
Qed.

Lemma tag_free_suffix pre s : tag_free (pre ++ s) = true -> tag_free s = true.
Proof.
  induction pre as [|c t IH]; simpl; [auto|].
  intros H. apply andb_prop in H as [_ H]. auto.
Qed.

Lemma tag_free_no_tag text :
  tag_free text = true ->
  forall pre tag post, is_tag tag -> text <> pre ++ tag ++ post.
Proof.
  intros Hfree pre tag post (body & -> & Hne & Hgt) ->.
  apply tag_free_suffix in Hfree. simpl in Hfree.
  apply andb_prop in Hfree as [H _].
  destruct body as [|c body']; [congruence|].
  simpl in H, Hgt. apply orb_false_iff in Hgt as [Hc Hb].
  rewrite Hc in H. simpl in H.
  rewrite !has_gt_app, Hb in H. simpl in H. discriminate.
Qed.

Lemma tag_free_after_lt text :
  tag_free text = true ->
  forall pre post,
    text = pre ++ String "<" post -> starts_gt post = true \/ has_gt post = false.
Proof.
  intros Hfree pre post ->.
  apply tag_free_suffix in Hfree. simpl in Hfree.
  apply andb_prop in Hfree as [H _].
  destruct (starts_gt post); [auto|]. destruct (has_gt post); [discriminate|auto].
Qed.

Lemma strip_tags_tag_free v text :
  strip_tags v = Ok text -> tag_free text = true.
Proof.
  unfold strip_tags. destruct (Py.truthy v); simpl.
  - destruct v; try discriminate. intros [= <-]. apply strip_markup_tag_free.
  - intros [= <-]. reflexivity.
Qed.

Lemma extract_content_tag_free article text :
  extract_content article = Ok text -> tag_free text = true.
Proof.
  unfold extract_content.
  destruct (Py.truthy (Py.dict_get article "fullContent" JNull));
    [apply strip_tags_tag_free|].
  destruct (nested_content article "content") as [c|]; simpl; [|discriminate].
  destruct (Py.truthy c); [apply strip_tags_tag_free|].
  destruct (nested_content article "summary") as [sm|]; simpl; [|discriminate].
  destruct (Py.truthy sm); [apply strip_tags_tag_free|].
  intros [= <-]. reflexivity.
Qed.

Example strip_tags_ex1 :
  strip_tags (JStr "<p>Hello <b>world</b></p>") = Ok "Hello world".
Proof. reflexivity. Qed.

Example strip_tags_ex2 :
  strip_tags (JStr "<a href='x'>1 < 2</a> and <br/>3 > 2")
  = Ok "1  and 3 > 2".
Proof. reflexivity. Qed.

(** Runs of spaces are folded once only. *)
Example strip_tags_ex3 : strip_tags (JStr "a<i><b></b></i>b") = Ok "a  b".
Proof. reflexivity. Qed.

(** The pattern asks for a character between the brackets: [<>] stays. *)
Example strip_tags_ex4 : strip_tags (JStr "a <> b") = Ok "a <> b".
Proof. reflexivity. Qed.

(** C2. For every HTML string, the text [strip_tags] returns for it holds no
    tag: the pattern [RE_STRIP] matches nowhere in it, that is, no part of it
    is made of [<], one or more characters other than [>], and [>]; a [<]
    of the text is followed by [>] at once or by no [>] at all.  The same
    holds of every text [extract_content] returns. *)
Theorem strip_tags_no_tag :
  (forall html : string,
      exists text,
        strip_tags (JStr html) = Ok text
        /\ Re.search match_RE_STRIP text = false
        /\ (forall pre tag post, is_tag tag -> text <> pre ++ tag ++ post)
        /\ (forall pre post,
               text = pre ++ String "<" post ->
               starts_gt post = true \/ has_gt post = false))
  /\ (forall article text,
         extract_content article = Ok text ->
         Re.search match_RE_STRIP text = false
         /\ (forall pre tag post, is_tag tag -> text <> pre ++ tag ++ post)
         /\ (forall pre post,
                text = pre ++ String "<" post ->
                starts_gt post = true \/ has_gt post = false)).
Proof.
  assert (Hfree : forall text,
             tag_free text = true ->
             Re.search match_RE_STRIP text = false
             /\ (forall pre tag post, is_tag tag -> text <> pre ++ tag ++ post)
             /\ (forall pre post,
                    text = pre ++ String "<" post ->
                    starts_gt post = true \/ has_gt post = false)).
  { intros text H. split; [|split].
    - rewrite tag_free_search in H. apply negb_true_iff in H. exact H.
    - apply tag_free_no_tag; exact H.
    - apply tag_free_after_lt; exact H. }
  split.
  - intros html.
    destruct (strip_tags (JStr html)) as [text|e] eqn:E.
    + exists text. split; [reflexivity|].
      apply Hfree. apply (strip_tags_tag_free _ _ E).
    + unfold strip_tags in E. destruct (Py.truthy (JStr html)); discriminate.
  - intros article text E. apply Hfree.
    apply (extract_content_tag_free _ _ E).
Qed.

Lemma strip_tags_no_tag_witness :
  Re.search match_RE_STRIP "Rates rise again" = false
  /\ (forall pre tag post,
         is_tag tag -> "Rates rise again" <> pre ++ tag ++ post)
  /\ (forall pre post,
         "Rates rise again" = pre ++ String "<" post ->
         starts_gt post = true \/ has_gt post = false).
Proof.
  apply (proj2 strip_tags_no_tag
           [("title", JStr "t");
            ("summary", JObj [("content", JStr "<p>Rates <em>rise</em> again</p>")])]).
  reflexivity.
Defined.

(** ** Pagination *)

Local Open Scope list_scope.

Section Pagination.

Variable post : list request -> request -> exc json.
Variable api_key : string.
Variable aliases : list json.
Variable newer_than : option Z.

Let request_of := page_request api_key aliases newer_than.
Let turn_of := search_turn post api_key aliases newer_than.
Let loop := search_loop post api_key aliases newer_than.
Let fed := feeds post api_key aliases newer_than.
Let sent_by := sent_after api_key aliases newer_than.

Lemma search_turn_page sent st data items token :
  post sent (request_of st) = Ok data ->
  page_of data items token ->
  turn_of sent st =
    Ok (if negb (Py.truthy token) || Py.eq token (continuation st)
        then Break (all_items st ++ items)
        else Again (next_state st items token)).
Proof.
  intros Hpost (d & -> & Hitems & Htoken).
  unfold turn_of, search_turn. fold request_of. rewrite Hpost.
  simpl. rewrite Hitems. simpl. rewrite Htoken.
  destruct (negb (Py.truthy token) || Py.eq token (continuation st)); reflexivity.
Qed.

Lemma search_turn_failure sent st e :
  post sent (request_of st) = Raise e ->
  turn_of sent st = Ok (Break (all_items st)).
Proof.
  intros Hpost. unfold turn_of, search_turn. fold request_of.
  rewrite Hpost. reflexivity.
Qed.

(** Pages that make the loop go on use one turn each. *)
Lemma search_loop_feeds pages : forall fuel sent st,
  fed sent st pages ->
  loop (length pages + fuel) sent st
  = loop fuel (sent_by sent st pages) (state_after st pages).
Proof.
  induction pages as [|[items token] rest IH]; intros fuel sent st H;
    [reflexivity|].
  destruct H as ((data & Hpost & Hpage) & Htruthy & Hnew & Hrest).
  fold request_of in Hpost, Hrest. fold fed in Hrest.
  unfold sent_by. cbn [sent_after length Nat.add state_after].
  fold request_of sent_by.
  unfold loop at 1. cbn [search_loop]. fold turn_of request_of loop.
  rewrite (search_turn_page _ _ _ _ _ Hpost Hpage), Htruthy, Hnew. simpl.
  apply IH. exact Hrest.
Qed.

Lemma all_items_after pages : forall st,
  all_items (state_after st pages) = all_items st ++ concat (map fst pages).
Proof.
  induction pages as [|[items token] rest IH]; intros st; simpl.
  - rewrite app_nil_r. reflexivity.
  - rewrite IH. simpl. rewrite app_assoc. reflexivity.
Qed.

Lemma last_cons {A : Type} (l : list A) : forall a d, last (a :: l) d = last l a.
Proof.
  induction l as [|b l IH]; intros a d; [reflexivity|].
  change (last (a :: b :: l) d) with (last (b :: l) d).
  rewrite !IH. reflexivity.
Qed.

Lemma continuation_after pages : forall st,
  continuation (state_after st pages) = last_token (continuation st) pages.
Proof.
  unfold last_token.
  induction pages as [|[items token] rest IH]; intros st; [reflexivity|].
  simpl state_after. rewrite IH. simpl continuation.
  simpl map. rewrite last_cons. reflexivity.
Qed.

Lemma sent_after_requests pages : forall sent st,
  fed sent st pages ->
  sent_by sent st pages ++ [request_of (state_after st pages)]
  = sent ++ request_of st
         :: map (fun p => request_with api_key aliases newer_than (Some (snd p)))
              pages.
Proof.
  induction pages as [|[items token] rest IH]; intros sent st H; [reflexivity|].
  destruct H as (_ & Htruthy & _ & Hrest).
  fold request_of in Hrest. fold fed in Hrest.
  unfold sent_by. cbn [sent_after state_after map]. fold request_of sent_by.
  rewrite (IH _ _ Hrest), <- app_assoc. simpl.
  do 2 f_equal. unfold request_of, page_request, next_state, request_with. simpl.
  rewrite Htruthy. reflexivity.
Qed.

End Pagination.

(** The loop ends on the second page of [empty_token_service], whose token
    is present and is not the token of the first page. *)
Lemma search_stops_on_empty_token :
  let first := request_with "key" [JStr "x"] None None in
  let second := request_with "key" [JStr "x"] None (Some (JStr "t1")) in
  let st := next_state initial_state [JStr "a1"] (JStr "t1") in
  search_turn empty_token_service "key" [JStr "x"] None [first] st
  = Ok (Break [JStr "a1"; JStr "a2"])
  /\ search_articles empty_token_service "key" [JStr "x"] None 5 []
     = Some (Ok ([JStr "a1"; JStr "a2"], [first; second]))
  /\ ~ spec_stop empty_token_page (continuation st).
Proof.
  split; [reflexivity|]. split; [reflexivity|].
  simpl. intros [H|H]; discriminate.
Qed.

(** C3, amended.  A turn of the loop sends the token of the page before,
    when there is one, and a well-formed page ends the loop exactly when its
    token is missing or falsy (empty) or equals the token that was sent.
    Hence, when the service answers with pages whose tokens are non-empty and
    differ each from the one before, and then with a page whose token is
    missing, empty or that of the page before, the search sends one request
    per page, the first without a token and each later one with the token of
    the page before, and returns the items of all the pages in the order of
    arrival. *)
Theorem search_articles_pagination
    (post : list request -> request -> exc json) (api_key : string)
    (aliases : list json) (newer_than : option Z) :
  (forall sent st data items token,
      post sent (page_request api_key aliases newer_than st) = Ok data ->
      page_of data items token ->
      rq_continuation (page_request api_key aliases newer_than st)
      = (if Py.truthy (continuation st) then Some (continuation st) else None)
      /\ ((Py.truthy token = false \/ Py.eq token (continuation st) = true) ->
          search_turn post api_key aliases newer_than sent st
          = Ok (Break (all_items st ++ items)))
      /\ (~ (Py.truthy token = false \/ Py.eq token (continuation st) = true) ->
          search_turn post api_key aliases newer_than sent st
          = Ok (Again (next_state st items token))))
  /\ (forall sent pages data items token fuel,
         feeds post api_key aliases newer_than sent initial_state pages ->
         post (sent_after api_key aliases newer_than sent initial_state pages)
              (page_request api_key aliases newer_than
                 (state_after initial_state pages)) = Ok data ->
         page_of data items token ->
         Py.truthy token = false \/ Py.eq token (last_token JNull pages) = true ->
         length pages < fuel ->
         search_articles post api_key aliases newer_than fuel sent
         = Some (Ok (concat (map fst pages) ++ items,
                     sent ++ request_with api_key aliases newer_than None
                          :: map (fun p => request_with api_key aliases newer_than
                                             (Some (snd p))) pages))).
Proof.
  split.
  - intros sent st data items token Hpost Hpage.
    split; [reflexivity|].
    rewrite (search_turn_page _ _ _ _ _ _ _ _ _ Hpost Hpage).
    split.
    + intros [H|H]; rewrite H; simpl; rewrite ?orb_true_r; reflexivity.
    + intros H.
      destruct (Py.truthy token); destruct (Py.eq token (continuation st));
        simpl; try reflexivity; exfalso; apply H; auto.
  - intros sent pages data items token fuel Hfeeds Hpost Hpage Hstop Hfuel.
    unfold search_articles.
    replace fuel with (length pages + S (fuel - S (length pages))) by lia.
    rewrite (search_loop_feeds _ _ _ _ _ _ _ _ Hfeeds).
    cbn [search_loop].
    rewrite (search_turn_page _ _ _ _ _ _ _ _ _ Hpost Hpage).
    rewrite continuation_after.
    replace (negb (Py.truthy token)
             || Py.eq token (last_token (continuation initial_state) pages))
      with true
      by (destruct Hstop as [H|H]; unfold initial_state; simpl; rewrite H;
          simpl; rewrite ?orb_true_r; reflexivity).
    rewrite all_items_after.
    rewrite (sent_after_requests _ _ _ _ _ _ _ Hfeeds).
    reflexivity.
Qed.

Lemma search_articles_pagination_witness :
  search_articles two_page_service "key" [JStr "x"] None 2 []
  = Some (Ok ([JStr "a1"; JStr "a2"; JStr "a3"],
              [request_with "key" [JStr "x"] None None;
               request_with "key" [JStr "x"] None (Some (JStr "t1"))])).
Proof.
  apply (proj2 (search_articles_pagination two_page_service "key" [JStr "x"] None)
           [] [([JStr "a1"], JStr "t1")] last_page [JStr "a2"; JStr "a3"] JNull 2).
  - simpl. repeat split.
    exists first_page. split; [reflexivity|].
    eexists. repeat split; reflexivity.
  - reflexivity.
  - eexists. repeat split; reflexivity.
  - left. reflexivity.
  - simpl. lia.
Defined.

(** C4. When the service has answered with pages that make the loop go on
    and the next request fails, whatever the exception, the search raises
    nothing: it returns the items of the pages received, in order, and sends
    no further request.  A failure of the first request gives the empty
    list. *)
Theorem search_articles_failure
    (post : list request -> request -> exc json) (api_key : string)
    (aliases : list json) (newer_than : option Z) :
  (forall sent pages e fuel,
      feeds post api_key aliases newer_than sent initial_state pages ->
      post (sent_after api_key aliases newer_than sent initial_state pages)
           (page_request api_key aliases newer_than
              (state_after initial_state pages)) = Raise e ->
      length pages < fuel ->
      search_articles post api_key aliases newer_than fuel sent
      = Some (Ok (concat (map fst pages),
                  sent ++ request_with api_key aliases newer_than None
                       :: map (fun p => request_with api_key aliases newer_than
                                          (Some (snd p))) pages)))
  /\ (forall sent e fuel,
         post sent (request_with api_key aliases newer_than None) = Raise e ->
         search_articles post api_key aliases newer_than (S fuel) sent
         = Some (Ok ([], sent ++ [request_with api_key aliases newer_than None]))).
Proof.
  assert (Hgen : forall sent pages e fuel,
      feeds post api_key aliases newer_than sent initial_state pages ->
      post (sent_after api_key aliases newer_than sent initial_state pages)
           (page_request api_key aliases newer_than
              (state_after initial_state pages)) = Raise e ->
      length pages < fuel ->
      search_articles post api_key aliases newer_than fuel sent
      = Some (Ok (concat (map fst pages),
                  sent ++ request_with api_key aliases newer_than None
                       :: map (fun p => request_with api_key aliases newer_than
                                          (Some (snd p))) pages))).
  { intros sent pages e fuel Hfeeds Hpost Hfuel.
    unfold search_articles.
    replace fuel with (length pages + S (fuel - S (length pages))) by lia.
    rewrite (search_loop_feeds _ _ _ _ _ _ _ _ Hfeeds).
    cbn [search_loop].
    rewrite (search_turn_failure _ _ _ _ _ _ _ Hpost).
    rewrite all_items_after.
    rewrite (sent_after_requests _ _ _ _ _ _ _ Hfeeds).
    reflexivity. }
  split; [exact Hgen|].
  intros sent e fuel Hpost.
  apply (Hgen sent [] e (S fuel)); [exact I | exact Hpost | simpl; lia].
Qed.

Lemma search_articles_failure_witness :
  search_articles failing_service "key" [JStr "x"] None 2 []
  = Some (Ok ([JStr "a1"],
              [request_with "key" [JStr "x"] None None;
               request_with "key" [JStr "x"] None (Some (JStr "t1"))]))
  /\ search_articles (fun _ _ => Raise RequestException) "key" [JStr "x"] None 1 []
     = Some (Ok ([], [request_with "key" [JStr "x"] None None])).
Proof.
  split.
  - apply (proj1 (search_articles_failure failing_service "key" [JStr "x"] None)
             [] [([JStr "a1"], JStr "t1")] RequestException 2).
    + simpl. repeat split.
      exists first_page. split; [reflexivity|].
      eexists. repeat split; reflexivity.
    + reflexivity.
    + simpl. lia.
  - apply (proj2 (search_articles_failure (fun _ _ => Raise RequestException)
                    "key" [JStr "x"] None) [] RequestException 0).
    reflexivity.
Defined.

(** ** The report *)

Lemma mapM_Forall2 {A B : Type} (f : A -> exc B) l : forall l',
  mapM f l = Ok l' -> Forall2 (fun a b => f a = Ok b) l l'.
Proof.
  induction l as [|a l IH]; simpl; intros l' H.
  - injection H as <-. constructor.
  - destruct (f a) as [b|] eqn:Ea; simpl in H; [|discriminate].
    destruct (mapM f l) as [bs|]; simpl in H; [|discriminate].
    injection H as <-. constructor; auto.
Qed.

Section Report.

Variable set_iter : list string -> list string.
Variable post : list request -> request -> exc json.
Variable api_key : string.
Variable newer_than : option Z.

Let process := process_trend set_iter post api_key newer_than.
Let loop := main_loop set_iter post api_key newer_than.




End Report.


Example scenario_run :
  main (nodup string_dec) scenario_service "key" None 3 1
    (JObj [("trends", JArr [scenario_trend])]) []
  = Some (Ok (Some scenario_report)).
Proof. reflexivity. Qed.


(** C8. A trend without aliases and with an empty label is passed over: the
    body of the loop raises nothing, sends no request and leaves the report
    as it is, so that the run gives what it gives without that trend, for
    the trends before it and for those after it. *)
Theorem trend_without_terms_skipped
    (set_iter : list string -> list string)
    (post : list request -> request -> exc json) (api_key : string)
    (newer_than : option Z) (trend : json) :
  no_search_term trend ->
  (forall fuel state,
      process_trend set_iter post api_key newer_than fuel trend state
      = Some (Ok state))
  /\ (forall fuel before after state,
         main_loop set_iter post api_key newer_than fuel
           (before ++ trend :: after) state
         = main_loop set_iter post api_key newer_than fuel
             (before ++ after) state).
Proof.
  intros (d & label & -> & Haliases & Hlabel & Hstrip).
  assert (Hskip : forall fuel state,
             process_trend set_iter post api_key newer_than fuel (JObj d) state
             = Some (Ok state)).
  { intros fuel [r sent]. unfold process_trend, search_terms,
      get_aliases_from_trend, trend_label. simpl.
    rewrite Haliases, Hlabel. simpl. rewrite Hstrip. reflexivity. }
  split; [exact Hskip|].
  intros fuel before after.
  induction before as [|t before IH]; intros state; simpl.
  - rewrite Hskip. reflexivity.
  - destruct (process_trend set_iter post api_key newer_than fuel t state)
      as [[state'|]|]; [apply IH|reflexivity|reflexivity].
Qed.

Lemma trend_without_terms_skipped_witness :
  main_loop (nodup string_dec) scenario_service "key" None 3
    [blank_trend; scenario_trend] (empty_report, [])
  = Some (Ok (scenario_report,
              [request_with "key" [JStr "foo"; JStr "bar"] None None])).
Proof.
  refine (eq_trans
            (proj2 (trend_without_terms_skipped (nodup string_dec)
                      scenario_service "key" None blank_trend _)
               3 [] [scenario_trend] (empty_report, [])) _).
  - exists [("label", JStr "  "); ("aliases", JArr [])], "  "%string.
    repeat split.
  - reflexivity.
Defined.

(** * Further properties *)

Local Open Scope string_scope.

(** ** Sheet names, continued *)

Lemma all_chars_slice_to p n : forall s,
  all_chars p s = true -> all_chars p (PyStr.slice_to n s) = true.
Proof.
  induction n as [|n IH]; intros [|c t]; simpl; auto.
  intros H. apply andb_prop in H as [Hc Ht]. rewrite Hc, IH by assumption.
  reflexivity.
Qed.

Lemma slice_to_idem n : forall s,
  PyStr.slice_to n (PyStr.slice_to n s) = PyStr.slice_to n s.
Proof.
  induction n as [|n IH]; intros [|c t]; simpl; auto.
  rewrite IH. reflexivity.
Qed.

Lemma without_chars_empty members s :
  without_chars members s = "" <-> all_chars (Re.in_class members) s = true.
Proof.
  induction s as [|c t IH]; simpl; [intuition|].
  destruct (Re.in_class members c); simpl; [exact IH|].
  split; discriminate.
Qed.

(** X1. Whatever the name, [sanitize_sheet_name] gives a name of at most 31
    characters none of which is illegal, and sanitizing that name again
    changes nothing. *)
Theorem sanitize_sheet_name_valid (name : string) :
  String.length (sanitize_sheet_name name) <= 31
  /\ all_chars legal_sheet_char (sanitize_sheet_name name) = true
  /\ sanitize_sheet_name (sanitize_sheet_name name) = sanitize_sheet_name name.
Proof.
  assert (Hlegal : all_chars legal_sheet_char (sanitize_sheet_name name) = true).
  { unfold sanitize_sheet_name. rewrite sub_class_without.
    apply all_chars_slice_to. apply without_chars_clean. }
  split; [|split; [exact Hlegal|]].
  - unfold sanitize_sheet_name. rewrite slice_to_length. apply Nat.le_min_l.
  - unfold sanitize_sheet_name at 1. rewrite sub_class_without.
    rewrite (without_chars_legal _ _ Hlegal).
    unfold sanitize_sheet_name. apply slice_to_idem.
Qed.

(** X2. [sanitize_sheet_name] gives the empty name exactly for the names
    made of illegal characters only (the empty name among them). *)
Theorem sanitize_sheet_name_empty (name : string) :
  sanitize_sheet_name name = ""
  <-> all_chars (Re.in_class illegal_sheet_chars) name = true.
Proof.
  unfold sanitize_sheet_name. rewrite sub_class_without.
  rewrite <- without_chars_empty.
  destruct (without_chars illegal_sheet_chars name); simpl; split;
    auto; discriminate.
Qed.

(** ** Tag stripping, continued *)

Lemma has_char_app a s t : has_char a (s ++ t) = has_char a s || has_char a t.
Proof.
  induction s as [|c s IH]; simpl; [reflexivity|].
  rewrite IH, orb_assoc. reflexivity.
Qed.

Lemma has_char_replace_from a old new s : forall skip,
  has_char a new = false -> has_char a s = false ->
  has_char a (PyStr.replace_from old new skip s) = false.
Proof.
  induction s as [|c t IH]; intros skip Hnew H; [destruct skip; reflexivity|].
  simpl in H. apply orb_false_iff in H as [Hc Ht].
  cbn [PyStr.replace_from]. destruct skip as [|k]; [|apply IH; assumption].
  destruct (PyStr.drop_prefix old (String c t)).
  - rewrite has_char_app, Hnew, IH by assumption. reflexivity.
  - cbn [has_char]. rewrite Hc, IH by assumption. reflexivity.
Qed.

(** After [s.replace(a, ' ')] there is no [a] left. *)
Lemma has_char_replace_char a s :
  Ascii.eqb " " a = false ->
  has_char a (PyStr.replace (String a "") " " s) = false.
Proof.
  intros Ha. unfold PyStr.replace.
  induction s as [|c t IH]; [reflexivity|].
  cbn [PyStr.replace_from PyStr.drop_prefix].
  destruct (Ascii.eqb_spec a c) as [<-|Hac].
  - destruct t; cbn [String.length Nat.sub append has_char];
      rewrite Ha; exact IH.
  - cbn [has_char]. rewrite IH, orb_false_r.
    apply Ascii.eqb_neq. congruence.
Qed.

Lemma has_char_lstrip a sp s :
  has_char a s = false -> has_char a (PyStr.lstrip_of sp s) = false.
Proof.
  induction s as [|c t IH]; simpl; [auto|]. intros H.
  destruct (sp c); [|exact H].
  apply orb_false_iff in H as [_ Ht]. auto.
Qed.

Lemma has_char_rstrip a sp s :
  has_char a s = false -> has_char a (PyStr.rstrip_of sp s) = false.
Proof.
  induction s as [|c t IH]; simpl; [auto|]. intros H.
  apply orb_false_iff in H as [Hc Ht]. specialize (IH Ht).
  destruct (PyStr.rstrip_of sp t) as [|c' t'].
  - destruct (sp c); simpl; [reflexivity|]. rewrite Hc. reflexivity.
  - cbn [has_char] in *. rewrite Hc. exact IH.
Qed.

Lemma rstrip_of_idem sp s :
  PyStr.rstrip_of sp (PyStr.rstrip_of sp s) = PyStr.rstrip_of sp s.
Proof.
  induction s as [|c t IH]; simpl; [reflexivity|].
  destruct (PyStr.rstrip_of sp t) as [|c' t'] eqn:Et.
  - destruct (sp c) eqn:Ec; simpl; [reflexivity|]. rewrite Ec. reflexivity.
  - cbn [PyStr.rstrip_of]. cbn [PyStr.rstrip_of] in IH. rewrite IH.
    reflexivity.
Qed.

(** What [lstrip] gives does not start with white space, and [rstrip]
    keeps the first character of such a string. *)
Lemma lstrip_rstrip_lstrip sp s :
  PyStr.lstrip_of sp (PyStr.rstrip_of sp (PyStr.lstrip_of sp s))
  = PyStr.rstrip_of sp (PyStr.lstrip_of sp s).
Proof.
  induction s as [|c t IH]; simpl; [reflexivity|].
  destruct (sp c) eqn:Ec; [exact IH|].
  cbn [PyStr.rstrip_of].
  destruct (PyStr.rstrip_of sp t); rewrite ?Ec; simpl; rewrite Ec; reflexivity.
Qed.

Lemma strip_of_idem sp s :
  PyStr.strip_of sp (PyStr.strip_of sp s) = PyStr.strip_of sp s.
Proof.
  unfold PyStr.strip_of. rewrite lstrip_rstrip_lstrip. apply rstrip_of_idem.
Qed.

Lemma strip_markup_trimmed html :
  has_char (ascii_of_nat 10) (strip_markup html) = false
  /\ has_char (ascii_of_nat 13) (strip_markup html) = false
  /\ PyStr.strip (strip_markup html) = strip_markup html.
Proof.
  unfold strip_markup, PyStr.strip. split; [|split].
  - unfold PyStr.strip_of.
    apply has_char_rstrip, has_char_lstrip.
    apply has_char_replace_from; [reflexivity|].
    apply has_char_replace_from; [reflexivity|].
    apply has_char_replace_char. reflexivity.
  - unfold PyStr.strip_of.
    apply has_char_rstrip, has_char_lstrip.
    apply has_char_replace_from; [reflexivity|].
    apply has_char_replace_char. reflexivity.
  - apply strip_of_idem.
Qed.

(** X3. A text [strip_tags] returns, whatever its argument, and a text
    [extract_content] returns hold no line feed and no carriage return, and
    have no white space at either end: stripping them again changes
    nothing. *)
Theorem strip_tags_trimmed :
  (forall v text,
      strip_tags v = Ok text ->
      has_char (ascii_of_nat 10) text = false
      /\ has_char (ascii_of_nat 13) text = false
      /\ PyStr.strip text = text)
  /\ (forall article text,
         extract_content article = Ok text ->
         has_char (ascii_of_nat 10) text = false
         /\ has_char (ascii_of_nat 13) text = false
         /\ PyStr.strip text = text).
Proof.
  assert (Hstrip : forall v text,
             strip_tags v = Ok text ->
             has_char (ascii_of_nat 10) text = false
             /\ has_char (ascii_of_nat 13) text = false
             /\ PyStr.strip text = text).
  { intros v text. unfold strip_tags. destruct (Py.truthy v); simpl.
    - destruct v; try discriminate. intros [= <-]. apply strip_markup_trimmed.
    - intros [= <-]. repeat split. }
  split; [exact Hstrip|].
  intros article text. unfold extract_content.
  destruct (Py.truthy (Py.dict_get article "fullContent" JNull));
    [apply Hstrip|].
  destruct (nested_content article "content") as [c|]; simpl; [|discriminate].
  destruct (Py.truthy c); [apply Hstrip|].
  destruct (nested_content article "summary") as [sm|]; simpl; [|discriminate].
  destruct (Py.truthy sm); [apply Hstrip|].
  intros [= <-]. repeat split.
Qed.

Lemma strip_tags_trimmed_witness :
  has_char (ascii_of_nat 10) "Rates rise again" = false
  /\ has_char (ascii_of_nat 13) "Rates rise again" = false
  /\ PyStr.strip "Rates rise again" = "Rates rise again".
Proof.
  apply (proj2 strip_tags_trimmed
           [("summary",
             JObj [("content",
                    JStr (" <p>Rates" ++ LF ++ "<em>rise</em>" ++ CR
                          ++ "again</p> "))])]).
  reflexivity.
Defined.

Lemma string_length_app s t :
  String.length (s ++ t) = String.length s + String.length t.
Proof. induction s as [|c s IH]; simpl; [reflexivity|]. rewrite IH. reflexivity. Qed.

Lemma sub_from_length matcher repl s : forall skip,
  String.length repl <= 1 ->
  String.length (Re.sub_from matcher repl skip s) <= String.length s.
Proof.
  induction s as [|c t IH]; intros skip Hrepl; [destruct skip; simpl; lia|].
  cbn [Re.sub_from]. cbn [String.length].
  destruct skip as [|k]; [|specialize (IH k Hrepl); lia].
  destruct (matcher (String c t)) as [n|].
  - rewrite string_length_app. specialize (IH (n - 1) Hrepl). lia.
  - cbn [String.length]. specialize (IH 0 Hrepl). lia.
Qed.

Lemma replace_from_length old new s : forall skip,
  String.length new <= 1 ->
  String.length (PyStr.replace_from old new skip s) <= String.length s.
Proof.
  induction s as [|c t IH]; intros skip Hnew; [destruct skip; simpl; lia|].
  cbn [PyStr.replace_from]. cbn [String.length].
  destruct skip as [|k]; [|specialize (IH k Hnew); lia].
  destruct (PyStr.drop_prefix old (String c t)).
  - rewrite string_length_app. specialize (IH (String.length old - 1) Hnew). lia.
  - cbn [String.length]. specialize (IH 0 Hnew). lia.
Qed.

Lemma lstrip_of_length sp s :
  String.length (PyStr.lstrip_of sp s) <= String.length s.
Proof.
  induction s as [|c t IH]; simpl; [lia|]. destruct (sp c); simpl; lia.
Qed.

Lemma rstrip_of_length sp s :
  String.length (PyStr.rstrip_of sp s) <= String.length s.
Proof.
  induction s as [|c t IH]; simpl; [lia|].
  destruct (PyStr.rstrip_of sp t); [destruct (sp c)|]; simpl in *; lia.
Qed.

(** X4. The text [strip_tags] returns for a string is never longer than the
    string: a tag gives way to one space and nothing else is added. *)
Theorem strip_tags_not_longer (html : string) :
  exists text,
    strip_tags (JStr html) = Ok text
    /\ String.length text <= String.length html.
Proof.
  unfold strip_tags. destruct html as [|c t]; [exists ""; auto|].
  eexists. split; [reflexivity|].
  unfold strip_markup, PyStr.strip, PyStr.strip_of, PyStr.replace, Re.sub.
  etransitivity; [apply rstrip_of_length|].
  etransitivity; [apply lstrip_of_length|].
  etransitivity; [apply replace_from_length; simpl; lia|].
  etransitivity; [apply replace_from_length; simpl; lia|].
  etransitivity; [apply replace_from_length; simpl; lia|].
  apply sub_from_length. simpl; lia.
Qed.

Lemma sub_no_match matcher repl s :
  Re.search matcher s = false -> Re.sub matcher repl s = s.
Proof.
  unfold Re.sub. induction s as [|c t IH]; [reflexivity|].
  cbn [Re.search Re.sub_from].
  destruct (matcher (String c t)); [discriminate|].
  intros H. rewrite (IH H). reflexivity.
Qed.

Lemma replace_absent old new s :
  PyStr.contains old s = false -> PyStr.replace old new s = s.
Proof.
  unfold PyStr.replace. induction s as [|c t IH]; [reflexivity|].
  cbn [PyStr.contains PyStr.replace_from].
  destruct (PyStr.drop_prefix old (String c t)); [discriminate|].
  intros H. rewrite (IH H). reflexivity.
Qed.

(** X5. [strip_tags] returns a string as it is when the string has nothing
    to remove: the pattern [RE_STRIP] matches nowhere in it, it holds no
    line feed, no carriage return and no two spaces in a row, and it has no
    white space at either end. *)
Theorem strip_tags_plain_text (text : string) :
  Re.search match_RE_STRIP text = false ->
  PyStr.contains LF text = false ->
  PyStr.contains CR text = false ->
  PyStr.contains "  " text = false ->
  PyStr.strip text = text ->
  strip_tags (JStr text) = Ok text.
Proof.
  intros Htag Hlf Hcr Hsp Hstrip. unfold strip_tags.
  destruct text as [|c t]; [reflexivity|].
  cbn [Py.truthy String.eqb negb]. unfold strip_markup.
  rewrite (sub_no_match _ _ _ Htag), (replace_absent _ _ _ Hlf),
    (replace_absent _ _ _ Hcr), (replace_absent _ _ _ Hsp), Hstrip.
  reflexivity.
Qed.

Lemma strip_tags_plain_text_witness :
  strip_tags (JStr "Rates <> prices, 3 < 5") = Ok "Rates <> prices, 3 < 5".
Proof. apply strip_tags_plain_text; reflexivity. Defined.

(** ** URL extraction, continued *)

(** X6. [extract_url] raises in one case only: without a [canonicalUrl],
    when [alternate] is a non-empty list whose first entry is not a dict;
    the exception is then [AttributeError]. *)
Theorem extract_url_raises (article : pydict) (e : exn) :
  extract_url article = Raise e
  <-> e = AttributeError
      /\ no_canonical_url article
      /\ exists first rest,
           Py.lookup "alternate" article = Some (JArr (first :: rest))
           /\ forall d, first <> JObj d.
Proof.
  split.
  - intros H.
    assert (Hno : no_canonical_url article).
    { unfold no_canonical_url. unfold extract_url, Py.has_key, Py.dict_get in H.
      destruct (Py.lookup "canonicalUrl" article) as [u|]; [|exact I].
      destruct (Py.truthy u); [discriminate|reflexivity]. }
    rewrite (extract_url_no_canonical _ Hno) in H. unfold Py.dict_get in H.
    destruct (Py.lookup "alternate" article) as [[| | | |[|first rest]|]|];
      try discriminate.
    destruct first; simpl in H; try discriminate; injection H as <-.
    all: split; [reflexivity|]; split; [exact Hno|].
    all: do 2 eexists; split; [reflexivity|]; intros d; discriminate.
  - intros (-> & Hno & first & rest & Halt & Hfirst).
    rewrite (extract_url_no_canonical _ Hno). unfold Py.dict_get.
    rewrite Halt. destruct first; try reflexivity.
    exfalso. apply (Hfirst fields). reflexivity.
Qed.

Lemma extract_url_raises_witness :
  extract_url [("alternate", JArr [JStr "https://a.example/x"])]
  = Raise AttributeError.
Proof.
  apply extract_url_raises. split; [reflexivity|]. split; [exact I|].
  exists (JStr "https://a.example/x"), []. split; [reflexivity|].
  intros d; discriminate.
Defined.

(** ** Type classification, continued *)

Lemma mapM_ok_iff {A B : Type} (f : A -> exc B) l :
  (exists l', mapM f l = Ok l') <-> Forall (fun a => exists b, f a = Ok b) l.
Proof.
  induction l as [|a l IH]; simpl.
  - split; [constructor | intros _; eauto].
  - split.
    + intros (l' & H). destruct (f a) as [b|] eqn:Ea; simpl in H; [|discriminate].
      destruct (mapM f l) as [bs|]; simpl in H; [|discriminate].
      constructor; [eauto | apply IH; eauto].
    + intros H. inversion H as [|? ? (b & Hb) Hl]; subst.
      apply IH in Hl as (bs & Hbs). rewrite Hb. simpl. rewrite Hbs. simpl. eauto.
Qed.

Lemma mapM_raise {A B : Type} (f : A -> exc B) l e :
  mapM f l = Raise e -> exists a, In a l /\ f a = Raise e.
Proof.
  induction l as [|a l IH]; simpl; [discriminate|].
  destruct (f a) as [b|e'] eqn:Ea; simpl.
  - destruct (mapM f l) as [bs|e'']; simpl; [discriminate|].
    intros [= <-]. destruct IH as (a' & Hin & Ha'); eauto.
  - intros [= <-]. eauto.
Qed.

Lemma all_dicts l :
  Forall (fun v => exists d, v = JObj d) l <-> exists ds, l = map JObj ds.
Proof.
  induction l as [|v l IH]; split.
  - intros _. exists []. reflexivity.
  - constructor.
  - intros H. inversion H as [|? ? (d & ->) Hl]; subst.
    apply IH in Hl as (ds & ->). exists (d :: ds). reflexivity.
  - intros ([|d ds] & H); [discriminate|]. injection H as -> ->.
    constructor; [eauto | apply IH; eauto].
Qed.

Lemma get_ok_iff v key default :
  (exists w, Py.get v key default = Ok w) <-> exists d, v = JObj d.
Proof.
  destruct v; simpl; split; intros (x & H); try discriminate; eauto.
Qed.

(** X7. [extract_type] returns a text exactly when [businessEvents] and
    [commonTopics] (the empty list when absent) can be iterated and give
    dicts only; otherwise it raises [TypeError] (a value that cannot be
    iterated) or [AttributeError] (an entry without [get]). *)
Theorem extract_type_returns (set_iter : list string -> list string)
    (article : pydict) (regulatory : list string) (expert conference : string) :
  ((exists text,
       extract_type set_iter article regulatory expert conference = Ok text)
   <-> exists events topics,
         Py.iter (Py.dict_get article "businessEvents" (JArr []))
         = Ok (map JObj events)
         /\ Py.iter (Py.dict_get article "commonTopics" (JArr []))
            = Ok (map JObj topics))
  /\ (forall e,
         extract_type set_iter article regulatory expert conference = Raise e ->
         e = TypeError \/ e = AttributeError).
Proof.
  assert (Hev : forall l, (exists r, mapM (event_types regulatory conference) l = Ok r)
                          <-> exists ds, l = map JObj ds).
  { intros l. rewrite mapM_ok_iff, <- all_dicts.
    split; apply Forall_impl; intros v.
    - intros (b & H). unfold event_types in H.
      destruct (Py.get v "id" JNull) eqn:E; [|discriminate].
      apply (proj1 (get_ok_iff v "id" JNull)). eauto.
    - intros (d & ->). eexists. reflexivity. }
  assert (Htop : forall l, (exists r, mapM (topic_types expert) l = Ok r)
                           <-> exists ds, l = map JObj ds).
  { intros l. rewrite mapM_ok_iff, <- all_dicts.
    split; apply Forall_impl; intros v.
    - intros (b & H). unfold topic_types in H.
      destruct (Py.get v "id" JNull) eqn:E; [|discriminate].
      apply (proj1 (get_ok_iff v "id" JNull)). eauto.
    - intros (d & ->). eexists. reflexivity. }
  unfold extract_type, collect_types.
  destruct (Py.iter (Py.dict_get article "businessEvents" (JArr [])))
    as [evs|e1] eqn:E1; simpl.
  2:{ split.
      - split; [intros (t & H); discriminate|].
        intros (events & topics & H & _). discriminate.
      - intros e [= <-]. destruct (Py.dict_get article "businessEvents" (JArr []));
          simpl in E1; try discriminate; injection E1 as <-; auto. }
  destruct (mapM (event_types regulatory conference) evs) as [r1|e2] eqn:E2; simpl.
  2:{ split.
      - split; [intros (t & H); discriminate|].
        intros (events & topics & H & _). injection H as ->.
        assert (exists r, mapM (event_types regulatory conference) (map JObj events) = Ok r)
          as (r & Hr) by (apply Hev; eauto).
        congruence.
      - intros e [= <-]. apply mapM_raise in E2 as (a & _ & Ha).
        unfold event_types in Ha. destruct a; simpl in Ha; try discriminate;
          injection Ha as <-; auto. }
  destruct (Py.iter (Py.dict_get article "commonTopics" (JArr [])))
    as [tops|e3] eqn:E3; simpl.
  2:{ split.
      - split; [intros (t & H); discriminate|].
        intros (events & topics & _ & H). discriminate.
      - intros e [= <-]. destruct (Py.dict_get article "commonTopics" (JArr []));
          simpl in E3; try discriminate; injection E3 as <-; auto. }
  destruct (mapM (topic_types expert) tops) as [r2|e4] eqn:E4; simpl.
  2:{ split.
      - split; [intros (t & H); discriminate|].
        intros (events & topics & _ & H). injection H as ->.
        assert (exists r, mapM (topic_types expert) (map JObj topics) = Ok r)
          as (r & Hr) by (apply Htop; eauto).
        congruence.
      - intros e [= <-]. apply mapM_raise in E4 as (a & _ & Ha).
        unfold topic_types in Ha. destruct a; simpl in Ha; try discriminate;
          injection Ha as <-; auto. }
  split; [|discriminate].
  split; [|eauto]. intros _.
  destruct (proj1 (Hev evs)) as (events & ->); [eauto|].
  destruct (proj1 (Htop tops)) as (topics & ->); [eauto|].
  eauto.
Qed.

Ltac enum_member :=
  repeat first [left; reflexivity | right].

Ltac enum_clash :=
  exfalso;
  repeat match goal with
         | H : NoDup (_ :: _) |- _ => inversion H; clear H; subst
         end;
  simpl in *; tauto.

(** The duplicate-free lists over three values. *)
Lemma enum_of_three (a b c : string) l :
  NoDup l -> (forall x, In x l -> x = a \/ x = b \/ x = c) ->
  In l [[]; [a]; [b]; [c]; [a; b]; [b; a]; [a; c]; [c; a]; [b; c]; [c; b];
        [a; b; c]; [a; c; b]; [b; a; c]; [b; c; a]; [c; a; b]; [c; b; a]].
Proof.
  intros Hnd Hin.
  destruct l as [|x1 [|x2 [|x3 [|x4 l]]]].
  - enum_member.
  - destruct (Hin x1 (or_introl eq_refl)) as [-> | [-> | ->]]; enum_member.
  - destruct (Hin x1 (or_introl eq_refl)) as [-> | [-> | ->]];
      destruct (Hin x2 (or_intror (or_introl eq_refl))) as [-> | [-> | ->]];
      first [solve [enum_member] | enum_clash].
  - destruct (Hin x1 (or_introl eq_refl)) as [-> | [-> | ->]];
      destruct (Hin x2 (or_intror (or_introl eq_refl))) as [-> | [-> | ->]];
      destruct (Hin x3 (or_intror (or_intror (or_introl eq_refl))))
        as [-> | [-> | ->]];
      first [solve [enum_member] | enum_clash].
  - destruct (Hin x1 (or_introl eq_refl)) as [-> | [-> | ->]];
      destruct (Hin x2 (or_intror (or_introl eq_refl))) as [-> | [-> | ->]];
      destruct (Hin x3 (or_intror (or_intror (or_introl eq_refl))))
        as [-> | [-> | ->]];
      destruct (Hin x4 (or_intror (or_intror (or_intror (or_introl eq_refl)))))
        as [-> | [-> | ->]];
      enum_clash.
Qed.

(** In the join of distinct categories, a category is found exactly when
    it is one of them. *)
Lemma contains_join_categories cats label :
  NoDup cats ->
  (forall x, In x cats ->
             x = "Regulatory" \/ x = "Conferences" \/ x = "Expert Mentions") ->
  In label ["Regulatory"; "Expert Mentions"; "Conferences"] ->
  PyStr.contains label (PyStr.join ", " cats) = true <-> In label cats.
Proof.
  intros Hnd Hin Hlabel.
  pose proof (enum_of_three _ _ _ _ Hnd Hin) as Hcats.
  simpl in Hlabel, Hcats.
  repeat match goal with
         | H : _ \/ _ |- _ => destruct H as [<-|H]
         | H : False |- _ => destruct H
         end.
  all: split; [intros H; vm_compute in H; try discriminate; simpl; auto 6
              | intros H; simpl in H;
                repeat match goal with
                       | G : _ \/ _ |- _ => destruct G as [G|G]
                       | G : False |- _ => destruct G
                       end; try discriminate; reflexivity].
Qed.

(** X8. Whatever the order in which a set is enumerated, the text
    [extract_type] returns mentions [Regulatory], [Expert Mentions] or
    [Conferences] ([find] does not give -1) exactly when the article has that
    category: no category is found inside the join of the others. *)
Theorem extract_type_mentions (set_iter : list string -> list string)
    (article : pydict) (events topics : list pydict) (label : string) :
  enumerates_set set_iter ->
  has_entries article events topics ->
  In label ["Regulatory"; "Expert Mentions"; "Conferences"] ->
  exists text,
    extract_type set_iter article regulatory_ids expert_id conference_id
    = Ok text
    /\ (PyStr.contains label text = true <-> contributed events topics label).
Proof.
  intros Hset Hshape Hlabel. unfold extract_type.
  rewrite (collect_types_entries _ _ _ Hshape). simpl bind.
  set (types := app _ _).
  assert (Hin : forall c, In c types <-> contributed events topics c)
    by (intros c; apply in_collected).
  assert (Hthree : forall c, contributed events topics c ->
             c = "Regulatory" \/ c = "Conferences" \/ c = "Expert Mentions").
  { intros c [[-> _] | [[-> _] | [-> _]]]; auto. }
  destruct types as [|t types'] eqn:E.
  - exists "". split; [reflexivity|]. rewrite <- Hin.
    rewrite <- (contains_join_categories [] label); [reflexivity|constructor| |exact Hlabel].
    intros x [].
  - eexists. split; [reflexivity|].
    destruct (Hset (t :: types')) as [Hnd Hmem].
    rewrite <- Hin, <- Hmem.
    apply contains_join_categories; [exact Hnd| |exact Hlabel].
    intros x Hx. apply Hthree, Hin, Hmem, Hx.
Qed.

Lemma extract_type_mentions_witness :
  exists text,
    extract_type (nodup string_dec) regulatory_expert_article
      regulatory_ids expert_id conference_id = Ok text
    /\ (PyStr.contains "Conferences" text = true
        <-> contributed
              [[("id", JStr "nlp/f/businessEvent/regulatory-changes")]]
              [[("id", JStr "nlp/f/topic/6001")]] "Conferences").
Proof.
  apply (extract_type_mentions (nodup string_dec) regulatory_expert_article
           [[("id", JStr "nlp/f/businessEvent/regulatory-changes")]]
           [[("id", JStr "nlp/f/topic/6001")]] "Conferences").
  - intros l. split; [apply NoDup_nodup | intros x; apply nodup_In].
  - split; reflexivity.
  - simpl. auto.
Defined.

Lemma extract_type_returns_witness :
  (exists text,
      extract_type (nodup string_dec) regulatory_expert_article
        regulatory_ids expert_id conference_id = Ok text)
  /\ (TypeError = TypeError \/ TypeError = AttributeError).
Proof.
  split.
  - apply (proj1 (extract_type_returns (nodup string_dec)
                    regulatory_expert_article regulatory_ids expert_id
                    conference_id)).
    exists [[("id", JStr "nlp/f/businessEvent/regulatory-changes")]],
      [[("id", JStr "nlp/f/topic/6001")]].
    split; reflexivity.
  - apply (proj2 (extract_type_returns (nodup string_dec)
                    [("businessEvents", JNull)] regulatory_ids expert_id
                    conference_id)).
    reflexivity.
Defined.

(** ** Timestamps, continued *)

(** X9. For two numbers of milliseconds from 0 to the end of year 9999,
    [get_human_date] gives the same text exactly when they lie in the same
    second: the text loses the milliseconds and nothing else. *)
Theorem get_human_date_same_second (a b : Z) :
  (0 <= a < 253402300800000)%Z -> (0 <= b < 253402300800000)%Z ->
  get_human_date (JNum a) = get_human_date (JNum b) <-> (a / 1000 = b / 1000)%Z.
Proof.
  intros Ha Hb.
  destruct (DateTimeFacts.utcfromtimestamp_ms_spec a) as (da & Ea & Va & Sa);
    [lia|].
  destruct (DateTimeFacts.utcfromtimestamp_ms_spec b) as (db & Eb & Vb & Sb);
    [lia|].
  unfold get_human_date. cbn [bind DateTime.int]. rewrite Ea, Eb.
  cbn [bind]. split.
  - intros H. rewrite <- Sa, <- Sb.
    f_equal. apply DateTimeRead.strftime_eq; assumption.
  - intros H. unfold DateTime.utcfromtimestamp_ms in Ea, Eb.
    rewrite H in Ea. rewrite Ea in Eb. injection Eb as ->. reflexivity.
Qed.

Lemma get_human_date_same_second_witness :
  get_human_date (JNum 1700000000001) = get_human_date (JNum 1700000000999).
Proof.
  apply get_human_date_same_second; [lia | lia | reflexivity].
Defined.

(** X10. For a number of milliseconds that is not negative,
    [get_human_date] gives the empty string exactly from the first instant
    of year 10000 on, and a text of 19 characters before. *)
Theorem get_human_date_range (ms : Z) :
  (0 <= ms)%Z ->
  (get_human_date (JNum ms) = "" <-> (253402300800000 <= ms)%Z)
  /\ ((ms < 253402300800000)%Z ->
      String.length (get_human_date (JNum ms)) = 19).
Proof.
  intros Hms. unfold get_human_date. cbn [bind DateTime.int].
  destruct (DateTime.utcfromtimestamp_ms ms) as [dt|e] eqn:E; cbn [bind].
  - assert (Hr : (-62135596800000 <= ms < 253402300800000)%Z)
      by (apply DateTimeFacts.utcfromtimestamp_ms_range; eauto).
    destruct (DateTimeFacts.utcfromtimestamp_ms_spec ms Hr) as (dt' & E' & Hv & Hs).
    rewrite E in E'. injection E' as <-.
    assert (Hlen : String.length (DateTime.strftime dt) = 19).
    { apply DateTimeRead.strftime_length; [apply Hv|].
      apply DateTimeRead.year_1000; [exact Hv|].
      rewrite Hs. Z.to_euclidean_division_equations; lia. }
    split; [|intros _; exact Hlen].
    split; [|lia]. intros H.
    rewrite H in Hlen. discriminate.
  - assert (Hr : ~ (-62135596800000 <= ms < 253402300800000)%Z).
    { intros Hr. apply DateTimeFacts.utcfromtimestamp_ms_range in Hr as (dt & Hdt).
      congruence. }
    split; [|intros H; lia].
    split; [intros _; lia | reflexivity].
Qed.

Lemma get_human_date_range_witness :
  get_human_date (JNum 253402300800000) = ""
  /\ String.length (get_human_date (JNum 1700000000000)) = 19.
Proof.
  split.
  - apply (proj1 (get_human_date_range 253402300800000 ltac:(lia))). lia.
  - apply (proj2 (get_human_date_range 1700000000000 ltac:(lia))). lia.
Defined.

(** ** Pagination, continued *)

Local Open Scope list_scope.

(** Equal values are both falsy or both truthy. *)
Lemma py_eq_truthy a b : Py.eq a b = true -> Py.truthy a = Py.truthy b.
Proof.
  destruct a as [|x|n|s|l|d], b as [|y|m|t|l'|d']; simpl; try discriminate;
    intros H.
  - reflexivity.
  - destruct x, y; simpl in *; congruence.
  - apply Z.eqb_eq in H. subst m. destruct x; reflexivity.
  - apply Z.eqb_eq in H. subst n. destruct y; reflexivity.
  - apply Z.eqb_eq in H. subst m. reflexivity.
  - apply String.eqb_eq in H. subst t. reflexivity.
  - destruct l, l'; try discriminate; reflexivity.
  - destruct d, d'; try discriminate; reflexivity.
Qed.

Section Requests.

Variable post : list request -> request -> exc json.
Variable api_key : string.
Variable aliases : list json.
Variable newer_than : option Z.

Let request_of := page_request api_key aliases newer_than.
Let turn_of := search_turn post api_key aliases newer_than.
Let loop := search_loop post api_key aliases newer_than.
Let with_token := request_with api_key aliases newer_than.

(** A turn that does not end the loop has read a token that is not falsy
    and differs from the one sent. *)
Lemma search_turn_again sent st st' :
  turn_of sent st = Ok (Again st') ->
  Py.truthy (continuation st') = true
  /\ Py.eq (continuation st') (continuation st) = false
  /\ request_of st' = with_token (Some (continuation st')).
Proof.
  unfold turn_of, search_turn. fold request_of.
  destruct (post sent (request_of st)) as [data|]; [|discriminate].
  destruct (Py.get data "items" (JArr [])) as [items|]; [|discriminate].
  cbn [bind].
  destruct (Py.iter items) as [new|]; [|discriminate]. cbn [bind].
  destruct (Py.get data "continuation" JNull) as [token|]; [|discriminate].
  cbn [bind].
  destruct (Py.truthy token) eqn:Et; [|discriminate].
  destruct (Py.eq token (continuation st)) eqn:Ee; [discriminate|].
  cbn [negb orb]. intros [= <-]. cbn [continuation].
  repeat split; auto.
  unfold request_of, page_request, with_token, request_with.
  cbn [continuation]. rewrite Et. reflexivity.
Qed.

Lemma search_loop_requests fuel : forall sent st items sent',
  loop fuel sent st = Some (Ok (items, sent')) ->
  exists tokens,
    sent' = sent ++ request_of st :: map (fun t => with_token (Some t)) tokens
    /\ Forall (fun t => Py.truthy t = true) tokens
    /\ fresh_chain (continuation st) tokens
    /\ length tokens < fuel.
Proof.
  induction fuel as [|fuel IH]; intros sent st items sent' H; [discriminate|].
  unfold loop in H. cbn [search_loop] in H. fold turn_of request_of loop in H.
  destruct (turn_of sent st) as [[out|st']|] eqn:Et; try discriminate.
  - injection H as <- <-. exists []. repeat split; [constructor|simpl; lia].
  - apply search_turn_again in Et as (Htruthy & Hfresh & Hreq).
    apply IH in H as (tokens & -> & Hall & Hchain & Hlen).
    exists (continuation st' :: tokens).
    rewrite <- app_assoc, Hreq. repeat split; auto.
    simpl. lia.
Qed.

End Requests.

(** X11. Whatever the service answers, when the search returns it has sent
    at least one and at most [fuel] requests after those sent before, all
    for the same key, aliases and cutoff: the first without a token, each
    later one with a token that is not falsy and differs from the token of
    the request before. *)
Theorem search_articles_requests
    (post : list request -> request -> exc json) (api_key : string)
    (aliases : list json) (newer_than : option Z) (fuel : nat)
    (sent sent' : list request) (items : list json) :
  search_articles post api_key aliases newer_than fuel sent
  = Some (Ok (items, sent')) ->
  exists tokens,
    sent' = sent ++ request_with api_key aliases newer_than None
                 :: map (fun t => request_with api_key aliases newer_than (Some t))
                      tokens
    /\ Forall (fun t => Py.truthy t = true) tokens
    /\ fresh_chain JNull tokens
    /\ length tokens < fuel.
Proof.
  intros H. apply search_loop_requests in H. exact H.
Qed.

Lemma search_articles_requests_witness :
  exists tokens,
    [request_with "key" [JStr "x"] None None;
     request_with "key" [JStr "x"] None (Some (JStr "t1"))]
    = [] ++ request_with "key" [JStr "x"] None None
            :: map (fun t => request_with "key" [JStr "x"] None (Some t)) tokens
    /\ Forall (fun t => Py.truthy t = true) tokens
    /\ fresh_chain JNull tokens
    /\ length tokens < 2.
Proof.
  apply (search_articles_requests two_page_service "key" [JStr "x"] None 2 []
           _ [JStr "a1"; JStr "a2"; JStr "a3"]).
  reflexivity.
Defined.

(** X12. The loop has no other way out: with a service that answers every
    request with a well-formed page whose token is not falsy and differs
    from the token it was sent, the search is still running after any number
    of turns. *)
Theorem search_articles_never_ends
    (post : list request -> request -> exc json) (api_key : string)
    (aliases : list json) (newer_than : option Z) :
  (forall sent req,
      exists data items token,
        post sent req = Ok data /\ page_of data items token
        /\ Py.truthy token = true
        /\ (forall t, rq_continuation req = Some t -> Py.eq token t = false)) ->
  forall fuel sent,
    search_articles post api_key aliases newer_than fuel sent = None.
Proof.
  intros Hpost fuel. unfold search_articles.
  generalize initial_state.
  induction fuel as [|fuel IH]; intros st sent; [reflexivity|].
  cbn [search_loop].
  destruct (Hpost sent (page_request api_key aliases newer_than st))
    as (data & items & token & Hdata & Hpage & Htruthy & Hfresh).
  rewrite (search_turn_page _ _ _ _ _ _ _ _ _ Hdata Hpage), Htruthy.
  assert (Hneq : Py.eq token (continuation st) = false).
  { destruct (Py.truthy (continuation st)) eqn:Ec.
    - apply Hfresh. unfold page_request. cbn [rq_continuation].
      rewrite Ec. reflexivity.
    - destruct (Py.eq token (continuation st)) eqn:Ee; [|reflexivity].
      apply py_eq_truthy in Ee. congruence. }
  rewrite Hneq. cbn [negb orb]. apply IH.
Qed.

Lemma search_articles_never_ends_witness :
  search_articles flip_service "key" [JStr "x"] None 1000 [] = None.
Proof.
  apply search_articles_never_ends.
  intros sent req. unfold flip_service.
  destruct (rq_continuation req) as [t|] eqn:Et.
  - destruct (Py.eq t (JStr "a")) eqn:Ea.
    + do 3 eexists. split; [reflexivity|].
      split; [eexists; repeat split; reflexivity|].
      split; [reflexivity|].
      intros t' [= <-]. apply py_eq_str in Ea. subst t. reflexivity.
    + do 3 eexists. split; [reflexivity|].
      split; [eexists; repeat split; reflexivity|].
      split; [reflexivity|].
      intros t' [= <-]. destruct t as [| | |s| |]; try reflexivity.
      change (String.eqb s "a" = false) in Ea.
      change (String.eqb "a" s = false).
      rewrite String.eqb_sym. exact Ea.
  - do 3 eexists. split; [reflexivity|].
    split; [eexists; repeat split; reflexivity|].
    split; [reflexivity|]. intros t' Ht'. discriminate.
Defined.

(** X13. The [try] covers the request only: when the service has answered
    with pages that make the loop go on and then with a body that is not a
    dict, the search raises [AttributeError], and when the [items] of the
    body cannot be iterated it raises the [TypeError] of the iteration; the
    items of the pages before are not returned. *)
Theorem search_articles_malformed_body
    (post : list request -> request -> exc json) (api_key : string)
    (aliases : list json) (newer_than : option Z)
    (sent : list request) (pages : list (list json * json)) (data : json)
    (fuel : nat) :
  feeds post api_key aliases newer_than sent initial_state pages ->
  post (sent_after api_key aliases newer_than sent initial_state pages)
       (page_request api_key aliases newer_than
          (state_after initial_state pages)) = Ok data ->
  length pages < fuel ->
  ((forall d, data <> JObj d) ->
   search_articles post api_key aliases newer_than fuel sent
   = Some (Raise AttributeError))
  /\ (forall d e,
         data = JObj d ->
         Py.iter (Py.dict_get d "items" (JArr [])) = Raise e ->
         search_articles post api_key aliases newer_than fuel sent
         = Some (Raise e)).
Proof.
  intros Hfeeds Hpost Hfuel. unfold search_articles.
  replace fuel with (length pages + S (fuel - S (length pages))) by lia.
  rewrite (search_loop_feeds _ _ _ _ _ _ _ _ Hfeeds).
  cbn [search_loop]. unfold search_turn. rewrite Hpost.
  split.
  - intros Hdata. destruct data; try reflexivity.
    exfalso. apply (Hdata fields). reflexivity.
  - intros d e -> Hiter. simpl. rewrite Hiter. reflexivity.
Qed.

Lemma search_articles_malformed_body_witness :
  search_articles
    (fun sent _ => match sent with
                   | [] => Ok first_page
                   | _ => Ok (JArr [])
                   end)
    "key" [JStr "x"] None 2 []
  = Some (Raise AttributeError).
Proof.
  refine (proj1 (search_articles_malformed_body _ "key" [JStr "x"] None []
                   [([JStr "a1"], JStr "t1")] (JArr []) 2 _ _ _) _).
  - simpl. repeat split.
    exists first_page. split; [reflexivity|].
    eexists. repeat split; reflexivity.
  - reflexivity.
  - simpl. lia.
  - intros d. discriminate.
Defined.

(** ** The report, continued *)

Lemma counted_le label rows : counted label rows <= length rows.
Proof. unfold counted. apply filter_length_le. Qed.

Lemma slice_list_length {A : Type} (k : Z) (l : list A) :
  (0 <= k)%Z -> length (slice_list k l) <= Z.to_nat k.
Proof.
  intros Hk. unfold slice_list.
  destruct (Z.leb_spec 0 k); [|lia]. apply firstn_le_length.
Qed.

Section Tables.

Variable set_iter : list string -> list string.
Variable post : list request -> request -> exc json.
Variable api_key : string.
Variable newer_than : option Z.

Let process := process_trend set_iter post api_key newer_than.
Let loop := main_loop set_iter post api_key newer_than.
Let type_of := article_type set_iter.
Let row_of := classify set_iter.

(** The [type] of the row of an article is what [extract_type] gives for
    the article in the summary. *)
Lemma classify_type a row : row_of a = Ok row -> type_of a = Ok (dr_type row).
Proof.
  unfold row_of, classify, type_of, article_type.
  destruct (as_dict a) as [article|]; [|discriminate]. cbn [bind].
  destruct (extract_url article); [|discriminate]. cbn [bind].
  destruct (extract_content article); [|discriminate]. cbn [bind].
  destruct (extract_type set_iter article regulatory_ids expert_id conference_id);
    [|discriminate].
  cbn [bind]. intros [= <-]. reflexivity.
Qed.

Lemma type_of_classified a :
  (exists row, row_of a = Ok row) -> exists t, type_of a = Ok t.
Proof. intros (row & H). apply classify_type in H. eauto. Qed.

Lemma classify_types articles : forall rows,
  mapM row_of articles = Ok rows ->
  mapM type_of articles = Ok (map dr_type rows).
Proof.
  induction articles as [|a articles IH]; simpl; intros rows H.
  - injection H as <-. reflexivity.
  - destruct (row_of a) as [row|] eqn:Ea; [|discriminate]. cbn [bind] in H.
    destruct (mapM row_of articles) as [rows'|]; [|discriminate].
    cbn [bind] in H. injection H as <-.
    rewrite (classify_type _ _ Ea). cbn [bind].
    rewrite (IH rows' eq_refl). reflexivity.
Qed.

Lemma count_type_rows label articles rows :
  mapM row_of articles = Ok rows ->
  count_type set_iter label articles = Ok (counted label rows).
Proof.
  intros H. unfold count_type. fold type_of.
  rewrite (classify_types _ _ H). cbn [bind]. unfold counted.
  apply f_equal. clear H. induction rows as [|row rows' IH]; [reflexivity|].
  simpl. destruct (PyStr.contains label (dr_type row)); simpl; congruence.
Qed.

(** What [tabulate] appends when every article can be classified. *)
Lemma tabulate_classified aliases_str first articles rows r :
  mapM row_of articles = Ok rows ->
  tabulate set_iter aliases_str first articles r
  = Ok {| summary_rows :=
            summary_rows r
            ++ [{| sr_aliases := aliases_str;
                   sr_total := length articles;
                   sr_regulatory := counted "Regulatory" rows;
                   sr_expert := counted "Expert Mentions" rows;
                   sr_conferences := counted "Conferences" rows |}];
          trend_data := trend_data r ++ [(sanitize_sheet_name first, rows)] |}.
Proof.
  intros H. unfold tabulate.
  rewrite !(count_type_rows _ _ _ H). cbn [bind].
  fold row_of. rewrite H. reflexivity.
Qed.

Lemma tabulate_rows_classified aliases_str first articles r r' :
  tabulate set_iter aliases_str first articles r = Ok r' ->
  exists rows, mapM row_of articles = Ok rows.
Proof.
  unfold tabulate. intros H.
  destruct (count_type set_iter "Regulatory" articles); [|discriminate].
  destruct (count_type set_iter "Expert Mentions" articles); [|discriminate].
  destruct (count_type set_iter "Conferences" articles); [|discriminate].
  cbn [bind] in H. fold row_of in H.
  destruct (mapM row_of articles) as [rows|]; [eauto|discriminate].
Qed.

(** What [process_trend] does to the report: nothing, or one sound pair
    more. *)
Lemma process_trend_sound fuel trend r sent r' sent' :
  process fuel trend (r, sent) = Some (Ok (r', sent')) ->
  r' = r
  \/ exists row sheet,
       summary_rows r' = summary_rows r ++ [row]
       /\ trend_data r' = trend_data r ++ [sheet]
       /\ sound_pair row sheet.
Proof.
  unfold process, process_trend. intros H.
  destruct (search_terms trend) as [[aliases|]|]; try discriminate.
  2:{ injection H as <- <-. left. reflexivity. }
  destruct (mapM as_str aliases) as [texts|] eqn:Etexts; [|discriminate].
  destruct (search_articles post api_key aliases newer_than fuel sent)
    as [[[articles after]|]|]; try discriminate.
  destruct articles as [|a articles].
  - injection H as <- <-. left. reflexivity.
  - destruct (tabulate _ _ _ _ r) as [r1|] eqn:Et; [|discriminate].
    injection H as <- <-.
    destruct (tabulate_rows_classified _ _ _ _ _ Et) as (rows & Hrows).
    rewrite (tabulate_classified _ _ _ _ _ Hrows) in Et. injection Et as <-.
    right. do 2 eexists. split; [reflexivity|]. split; [reflexivity|].
    pose proof (Forall2_length (mapM_Forall2 _ _ _ Hrows)) as Hlen.
    unfold sound_pair. cbn [fst snd sr_total sr_regulatory sr_expert
                              sr_conferences sr_aliases].
    split; [destruct rows; [discriminate Hlen|discriminate]|].
    split; [exact Hlen|]. do 3 (split; [reflexivity|]).
    destruct texts as [|first others];
      [exists ""%string, [] | exists first, others]; split; reflexivity.
Qed.

Lemma main_loop_sound fuel trends : forall r sent r' sent',
  Forall2 sound_pair (summary_rows r) (trend_data r) ->
  loop fuel trends (r, sent) = Some (Ok (r', sent')) ->
  Forall2 sound_pair (summary_rows r') (trend_data r')
  /\ length (trend_data r') <= length (trend_data r) + length trends.
Proof.
  induction trends as [|trend rest IH]; intros r sent r' sent' Hinv H.
  - injection H as <- <-. split; [exact Hinv|lia].
  - unfold loop in H. cbn [main_loop] in H. fold process loop in H.
    destruct (process fuel trend (r, sent)) as [[[r1 sent1]|]|] eqn:Ep;
      try discriminate.
    apply process_trend_sound in Ep
      as [->|(row & sheet & Hs & Ht & Hpair)].
    + destruct (IH _ _ _ _ Hinv H) as [H1 H2]. split; [exact H1|simpl; lia].
    + assert (Hinv1 : Forall2 sound_pair (summary_rows r1) (trend_data r1)).
      { rewrite Hs, Ht. apply Forall2_app; [exact Hinv|].
        constructor; [exact Hpair|constructor]. }
      destruct (IH _ _ _ _ Hinv1 H) as [H1 H2]. split; [exact H1|].
      rewrite Ht, length_app in H2. simpl in *. lia.
Qed.

End Tables.


(** The loop [main] runs, when it hands a report to the writer. *)
Lemma main_report set_iter post api_key newer_than fuel num_trends trends_json
    sent r :
  main set_iter post api_key newer_than fuel num_trends trends_json sent
  = Some (Ok (Some r)) ->
  exists trends sent',
    main_loop set_iter post api_key newer_than fuel trends (empty_report, sent)
    = Some (Ok (r, sent'))
    /\ ((0 <= num_trends)%Z -> length trends <= Z.to_nat num_trends).
Proof.
  unfold main. intros H.
  destruct (Py.get trends_json "trends" (JArr [])) as [trends|]; [|discriminate].
  cbn [bind] in H.
  destruct (Py.truthy trends); cbn [negb] in H; [|discriminate].
  destruct trends as [| | |text|l|]; try discriminate.
  - destruct (main_loop _ _ _ _ _ (slice_list num_trends (Py.chars text)) _)
      as [[[r' sent']|]|] eqn:E; try discriminate.
    injection H as <-. do 2 eexists. split; [exact E|].
    apply slice_list_length.
  - destruct (main_loop _ _ _ _ _ (slice_list num_trends l) _)
      as [[[r' sent']|]|] eqn:E; try discriminate.
    injection H as <-. do 2 eexists. split; [exact E|].
    apply slice_list_length.
Qed.

(** X14. In the report [main] hands to the writer, each count of a summary
    row is the number of rows of the sheet of the same trend whose [type]
    mentions the category, so that no count exceeds the total. *)
Theorem report_counts_match_rows
    (set_iter : list string -> list string)
    (post : list request -> request -> exc json) (api_key : string)
    (newer_than : option Z) (fuel : nat) (num_trends : Z) (trends_json : json)
    (sent : list request) (r : report) :
  main set_iter post api_key newer_than fuel num_trends trends_json sent
  = Some (Ok (Some r)) ->
  Forall2 (fun row sheet =>
             sr_regulatory row = counted "Regulatory" (snd sheet)
             /\ sr_expert row = counted "Expert Mentions" (snd sheet)
             /\ sr_conferences row = counted "Conferences" (snd sheet)
             /\ sr_regulatory row <= sr_total row
             /\ sr_expert row <= sr_total row
             /\ sr_conferences row <= sr_total row)
    (summary_rows r) (trend_data r).
Proof.
  intros H. apply main_report in H as (trends & sent' & H & _).
  apply main_loop_sound in H as [H _]; [|constructor].
  revert H. apply Forall2_impl.
  intros row sheet (_ & Htotal & H1 & H2 & H3 & _).
  rewrite H1, H2, H3, Htotal. repeat split; apply counted_le.
Qed.

Lemma report_counts_match_rows_witness :
  Forall2 (fun row sheet =>
             sr_regulatory row = counted "Regulatory" (snd sheet)
             /\ sr_expert row = counted "Expert Mentions" (snd sheet)
             /\ sr_conferences row = counted "Conferences" (snd sheet)
             /\ sr_regulatory row <= sr_total row
             /\ sr_expert row <= sr_total row
             /\ sr_conferences row <= sr_total row)
    (summary_rows scenario_report) (trend_data scenario_report).
Proof.
  apply (report_counts_match_rows (nodup string_dec) scenario_service "key"
           None 3 1 (JObj [("trends", JArr [scenario_trend])]) []).
  reflexivity.
Defined.

(** X15. The report [main] hands to the writer has no empty sheet and no
    summary row with a total of 0, and, for a [num_trends] that is not
    negative, no more sheets than [num_trends]. *)
Theorem report_sheets_not_empty
    (set_iter : list string -> list string)
    (post : list request -> request -> exc json) (api_key : string)
    (newer_than : option Z) (fuel : nat) (num_trends : Z) (trends_json : json)
    (sent : list request) (r : report) :
  main set_iter post api_key newer_than fuel num_trends trends_json sent
  = Some (Ok (Some r)) ->
  Forall (fun sheet => snd sheet <> []) (trend_data r)
  /\ Forall (fun row => 1 <= sr_total row) (summary_rows r)
  /\ ((0 <= num_trends)%Z -> length (trend_data r) <= Z.to_nat num_trends).
Proof.
  intros H. apply main_report in H as (trends & sent' & H & Hslice).
  apply main_loop_sound in H as [H Hlen]; [|constructor].
  split; [|split].
  - clear Hlen. induction H as [|row sheet rows sheets Hpair _ IH]; constructor.
    + apply Hpair.
    + exact IH.
  - clear Hlen. induction H as [|row sheet rows sheets Hpair _ IH]; constructor.
    + destruct Hpair as (Hne & Htotal & _). rewrite Htotal.
      destruct (snd sheet); [contradiction|simpl; lia].
    + exact IH.
  - intros Hk. specialize (Hslice Hk). simpl in Hlen. lia.
Qed.

Lemma report_sheets_not_empty_witness :
  Forall (fun sheet => snd sheet <> []) (trend_data scenario_report)
  /\ Forall (fun row => 1 <= sr_total row) (summary_rows scenario_report)
  /\ ((0 <= 1)%Z -> length (trend_data scenario_report) <= Z.to_nat 1).
Proof.
  apply (report_sheets_not_empty (nodup string_dec) scenario_service "key"
           None 3 1 (JObj [("trends", JArr [scenario_trend])]) []).
  reflexivity.
Defined.



(** X17. The tables of a trend are built for all of its articles or for
    none: [tabulate] returns exactly when every article can be classified,
    and one article on which [classify] raises makes it raise, so that the
    run ends without a report. *)
Theorem tabulate_all_or_nothing
    (set_iter : list string -> list string) (aliases_str first : string)
    (articles : list json) (r : report) :
  ((exists r', tabulate set_iter aliases_str first articles r = Ok r')
   <-> Forall (fun a => exists row, classify set_iter a = Ok row) articles)
  /\ (forall a e,
         In a articles -> classify set_iter a = Raise e ->
         exists e', tabulate set_iter aliases_str first articles r = Raise e').
Proof.
  assert (Hiff : (exists r', tabulate set_iter aliases_str first articles r = Ok r')
                 <-> Forall (fun a => exists row, classify set_iter a = Ok row)
                       articles).
  { rewrite <- mapM_ok_iff. split.
    - intros (r' & H). apply (tabulate_rows_classified _ _ _ _ _ _ H).
    - intros (rows & H). rewrite (tabulate_classified _ _ _ _ _ _ H). eauto. }
  split; [exact Hiff|].
  intros a e Hin Ha.
  destruct (tabulate set_iter aliases_str first articles r) as [r'|e'] eqn:E;
    [|eauto].
  exfalso.
  assert (Hall : Forall (fun a => exists row, classify set_iter a = Ok row) articles)
    by (apply Hiff; eauto).
  rewrite Forall_forall in Hall. destruct (Hall a Hin) as (row & Hrow).
  congruence.
Qed.

Lemma tabulate_all_or_nothing_witness :
  exists e',
    tabulate (nodup string_dec) "foo" "foo"
      [JObj [("id", JStr "1")];
       JObj [("id", JStr "2"); ("alternate", JArr [JStr "href"])]]
      empty_report = Raise e'.
Proof.
  apply (proj2 (tabulate_all_or_nothing (nodup string_dec) "foo" "foo" _ _)
           (JObj [("id", JStr "2"); ("alternate", JArr [JStr "href"])])
           AttributeError).
  - simpl. auto.
  - reflexivity.
Defined.

Example bad_article_run :
  main (nodup string_dec) bad_article_service "key" None 3 1
    (JObj [("trends", JArr [scenario_trend])]) []
  = Some (Raise AttributeError).
Proof. reflexivity. Qed.

Lemma process_trend_terms set_iter post api_key newer_than fuel trend trend' state :
  search_terms trend = search_terms trend' ->
  process_trend set_iter post api_key newer_than fuel trend state
  = process_trend set_iter post api_key newer_than fuel trend' state.
Proof.
  intros H. unfold process_trend. rewrite H. reflexivity.
Qed.

(** X18. A trend without aliases whose label is not empty once trimmed is
    processed exactly as a trend whose only alias is the trimmed label: the
    same searches, the same summary row, the same sheet. *)
Theorem trend_label_fallback
    (set_iter : list string -> list string)
    (post : list request -> request -> exc json) (api_key : string)
    (newer_than : option Z) (d : pydict) (label : string) :
  Py.iter (Py.dict_get d "aliases" (JArr [])) = Ok [] ->
  Py.dict_get d "label" (JStr "") = JStr label ->
  PyStr.strip label <> "" ->
  forall fuel state,
    process_trend set_iter post api_key newer_than fuel (JObj d) state
    = process_trend set_iter post api_key newer_than fuel
        (single_alias_trend (PyStr.strip label)) state.
Proof.
  intros Haliases Hlabel Hne fuel state.
  apply process_trend_terms.
  unfold search_terms, get_aliases_from_trend, trend_label, single_alias_trend.
  cbn [Py.get bind]. rewrite Haliases, Hlabel. cbn [bind].
  destruct (String.eqb_spec (PyStr.strip label) "") as [E|_]; [contradiction|].
  reflexivity.
Qed.

Lemma trend_label_fallback_witness :
  process_trend (nodup string_dec) scenario_service "key" None 3
    (JObj [("label", JStr " foo "); ("aliases", JArr [])]) (empty_report, [])
  = process_trend (nodup string_dec) scenario_service "key" None 3
      (single_alias_trend "foo") (empty_report, []).
Proof.
  apply (trend_label_fallback (nodup string_dec) scenario_service "key" None
           [("label", JStr " foo "); ("aliases", JArr [])] " foo ").
  - reflexivity.
  - reflexivity.
  - discriminate.
Defined.

Lemma mapM_as_str_raises l :
  (exists v, In v l /\ forall s, v <> JStr s) ->
  mapM as_str l = Raise TypeError.
Proof.
  induction l as [|v l IH]; intros (w & Hin & Hw); [destruct Hin|].
  simpl. destruct v as [| | |s| |]; try reflexivity. cbn [as_str bind].
  destruct Hin as [<-|Hin]; [exfalso; apply (Hw s); reflexivity|].
  rewrite IH by eauto. reflexivity.
Qed.

(** X19. A trend that is a dict with aliases that can be iterated makes the
    run end with an exception before any request is sent when its label is
    not a string ([AttributeError], also when there are aliases) and, with
    a label that is a string, when one of its aliases is not a string
    ([TypeError]). *)
Theorem malformed_trend_raises
    (set_iter : list string -> list string)
    (post : list request -> request -> exc json) (api_key : string)
    (newer_than : option Z) (d : pydict) (aliases : list json) :
  Py.iter (Py.dict_get d "aliases" (JArr [])) = Ok aliases ->
  ((forall s, Py.dict_get d "label" (JStr "") <> JStr s) ->
   forall fuel state,
     process_trend set_iter post api_key newer_than fuel (JObj d) state
     = Some (Raise AttributeError))
  /\ (forall label,
         Py.dict_get d "label" (JStr "") = JStr label ->
         (exists v, In v aliases /\ forall s, v <> JStr s) ->
         forall fuel state,
           process_trend set_iter post api_key newer_than fuel (JObj d) state
           = Some (Raise TypeError)).
Proof.
  intros Haliases. split.
  - intros Hlabel fuel [r sent].
    unfold process_trend, search_terms, get_aliases_from_trend, trend_label.
    cbn [Py.get bind]. rewrite Haliases. cbn [bind].
    destruct (Py.dict_get d "label" (JStr "")) as [| | |s| |]; try reflexivity.
    exfalso. apply (Hlabel s). reflexivity.
  - intros label Hlabel Hbad fuel [r sent].
    unfold process_trend, search_terms, get_aliases_from_trend, trend_label.
    cbn [Py.get bind]. rewrite Haliases, Hlabel. cbn [bind].
    destruct aliases as [|v l]; [destruct Hbad as (v & [] & _)|].
    rewrite (mapM_as_str_raises _ Hbad). reflexivity.
Qed.

Lemma malformed_trend_raises_witness :
  process_trend (nodup string_dec) scenario_service "key" None 0
    (JObj [("label", JNull); ("aliases", JArr [JStr "foo"])]) (empty_report, [])
  = Some (Raise AttributeError)
  /\ process_trend (nodup string_dec) scenario_service "key" None 0
       (JObj [("label", JStr "X"); ("aliases", JArr [JStr "foo"; JNum 7])])
       (empty_report, [])
     = Some (Raise TypeError).
Proof.
  split.
  - apply (proj1 (malformed_trend_raises (nodup string_dec) scenario_service
                    "key" None [("label", JNull); ("aliases", JArr [JStr "foo"])]
                    [JStr "foo"] eq_refl)).
    intros s. discriminate.
  - apply (proj2 (malformed_trend_raises (nodup string_dec) scenario_service
                    "key" None
                    [("label", JStr "X"); ("aliases", JArr [JStr "foo"; JNum 7])]
                    [JStr "foo"; JNum 7] eq_refl) "X" eq_refl).
    exists (JNum 7). split; [simpl; auto|]. intros s. discriminate.
Defined.

Lemma sanitize_sheet_name_empty_witness : sanitize_sheet_name "[?]/*" = "".
Proof. apply sanitize_sheet_name_empty. reflexivity. Defined.

Section Composition.

Variable set_iter : list string -> list string.
Variable post : list request -> request -> exc json.
Variable api_key : string.
Variable newer_than : option Z.

Let process := process_trend set_iter post api_key newer_than.
Let loop := main_loop set_iter post api_key newer_than.

(** The report and the requests only grow in [process_trend]. *)
Lemma process_trend_grows fuel trend r sent r' sent' :
  process fuel trend (r, sent) = Some (Ok (r', sent')) ->
  (exists rows, summary_rows r' = summary_rows r ++ rows)
  /\ (exists sheets, trend_data r' = trend_data r ++ sheets)
  /\ (exists requests, sent' = sent ++ requests).
Proof.
  unfold process, process_trend. intros H.
  destruct (search_terms trend) as [[aliases|]|]; try discriminate.
  2:{ injection H as <- <-. repeat split; exists []; rewrite app_nil_r; reflexivity. }
  destruct (mapM as_str aliases) as [texts|]; [|discriminate].
  destruct (search_articles post api_key aliases newer_than fuel sent)
    as [[[articles after]|]|] eqn:Es; try discriminate.
  assert (Hsent : exists requests, after = sent ++ requests).
  { apply search_loop_requests in Es as (tokens & -> & _). eauto. }
  destruct articles as [|a articles].
  - injection H as <- <-. repeat split; [exists []..|exact Hsent];
      rewrite app_nil_r; reflexivity.
  - destruct (tabulate _ _ _ _ r) as [r1|] eqn:Et; [|discriminate].
    injection H as <- <-.
    destruct (tabulate_rows_classified _ _ _ _ _ _ Et) as (rows & Hrows).
    rewrite (tabulate_classified _ _ _ _ _ _ Hrows) in Et. injection Et as <-.
    cbn [summary_rows trend_data]. repeat split; eauto.
Qed.

Lemma main_loop_app fuel before : forall after state,
  loop fuel (before ++ after) state
  = match loop fuel before state with
    | Some (Ok state') => loop fuel after state'
    | other => other
    end.
Proof.
  induction before as [|trend before IH]; intros after state; [reflexivity|].
  unfold loop. cbn [app main_loop]. fold process loop.
  destruct (process fuel trend state) as [[state'|]|]; auto.
Qed.

Lemma main_loop_grows fuel trends : forall r sent r' sent',
  loop fuel trends (r, sent) = Some (Ok (r', sent')) ->
  (exists rows, summary_rows r' = summary_rows r ++ rows)
  /\ (exists sheets, trend_data r' = trend_data r ++ sheets)
  /\ (exists requests, sent' = sent ++ requests).
Proof.
  induction trends as [|trend rest IH]; intros r sent r' sent' H.
  - injection H as <- <-. repeat split; exists []; rewrite app_nil_r; reflexivity.
  - unfold loop in H. cbn [main_loop] in H. fold process loop in H.
    destruct (process fuel trend (r, sent)) as [[[r1 sent1]|]|] eqn:Ep;
      try discriminate.
    apply process_trend_grows in Ep as ((x1 & E1) & (y1 & F1) & (z1 & G1)).
    apply IH in H as ((x2 & E2) & (y2 & F2) & (z2 & G2)).
    rewrite E2, E1, F2, F1, G2, G1, <- !app_assoc. repeat split; eauto.
Qed.

End Composition.

(** X20. The trends are processed one after the other and a later trend
    changes nothing of what is there: a run over [before ++ after] that
    hands over a report is a run over [before] followed by a run over
    [after] from the report and the requests of the first, and the summary
    rows, the sheets and the requests of the first are the beginning of
    those of the whole. *)
Theorem main_loop_appends
    (set_iter : list string -> list string)
    (post : list request -> request -> exc json) (api_key : string)
    (newer_than : option Z) (fuel : nat) (before after : list json)
    (state : report * list request) (r : report) (sent : list request) :
  main_loop set_iter post api_key newer_than fuel (before ++ after) state
  = Some (Ok (r, sent)) ->
  exists r1 sent1,
    main_loop set_iter post api_key newer_than fuel before state
    = Some (Ok (r1, sent1))
    /\ main_loop set_iter post api_key newer_than fuel after (r1, sent1)
       = Some (Ok (r, sent))
    /\ (exists rows, summary_rows r = summary_rows r1 ++ rows)
    /\ (exists sheets, trend_data r = trend_data r1 ++ sheets)
    /\ (exists requests, sent = sent1 ++ requests).
Proof.
  intros H. rewrite main_loop_app in H.
  destruct (main_loop set_iter post api_key newer_than fuel before state)
    as [[[r1 sent1]|]|]; try discriminate.
  exists r1, sent1. split; [reflexivity|]. split; [exact H|].
  apply (main_loop_grows _ _ _ _ _ _ _ _ _ _ H).
Qed.

Lemma main_loop_appends_witness :
  exists r1 sent1,
    main_loop (nodup string_dec) scenario_service "key" None 3
      [scenario_trend] (empty_report, []) = Some (Ok (r1, sent1))
    /\ main_loop (nodup string_dec) scenario_service "key" None 3
         [single_alias_trend "bar"] (r1, sent1)
       = Some (Ok ({| summary_rows :=
                        summary_rows scenario_report
                        ++ [{| sr_aliases := "bar"; sr_total := 2;
                               sr_regulatory := 1; sr_expert := 0;
                               sr_conferences := 0 |}];
                      trend_data :=
                        trend_data scenario_report
                        ++ [("bar"%string, snd (hd (""%string, [])
                                                  (trend_data scenario_report)))] |},
                   [request_with "key" [JStr "foo"; JStr "bar"] None None;
                    request_with "key" [JStr "bar"] None None]))
    /\ (exists rows,
           summary_rows scenario_report
           ++ [{| sr_aliases := "bar"; sr_total := 2; sr_regulatory := 1;
                  sr_expert := 0; sr_conferences := 0 |}]
           = summary_rows r1 ++ rows)
    /\ (exists sheets,
           trend_data scenario_report
           ++ [("bar"%string, snd (hd (""%string, [])
                                     (trend_data scenario_report)))]
           = trend_data r1 ++ sheets)
    /\ (exists requests,
           [request_with "key" [JStr "foo"; JStr "bar"] None None;
            request_with "key" [JStr "bar"] None None]
           = sent1 ++ requests).
Proof.
  apply (main_loop_appends (nodup string_dec) scenario_service "key" None 3
           [scenario_trend] [single_alias_trend "bar"] (empty_report, [])).
  reflexivity.
Defined.

(** ** Content extraction *)

Lemma nested_content_none article key :
  no_nested_text article key ->
  exists v, nested_content article key = Ok v /\ Py.truthy v = false.
Proof.
  unfold nested_content. intros [H|(inner & Hd & H)].
  - rewrite H. eauto.
  - rewrite Hd. destruct inner as [|f inner']; [simpl in *; eauto|].
    cbn [Py.truthy Py.get]. eauto.
Qed.

Lemma nested_content_text article key inner :
  Py.dict_get article key JNull = JObj inner ->
  Py.truthy (Py.dict_get inner "content" JNull) = true ->
  nested_content article key = Ok (Py.dict_get inner "content" JNull).
Proof.
  unfold nested_content. intros Hd H. rewrite Hd.
  destruct inner as [|f inner']; [discriminate H|]. reflexivity.
Qed.

(** X21. [extract_content] takes the first of [fullContent],
    [content.content] and [summary.content] that is not falsy, before any
    stripping, and does not look at the fields after it: the result is
    [strip_tags] of that value, also when it strips to the empty text, and
    the empty text when there is none.  A [content] that is truthy and not a
    dict is reached only without a [fullContent] and then raises
    [AttributeError]. *)
Theorem extract_content_precedence (article : pydict) :
  (Py.truthy (Py.dict_get article "fullContent" JNull) = true ->
   extract_content article = strip_tags (Py.dict_get article "fullContent" JNull))
  /\ (forall inner,
         Py.truthy (Py.dict_get article "fullContent" JNull) = false ->
         Py.dict_get article "content" JNull = JObj inner ->
         Py.truthy (Py.dict_get inner "content" JNull) = true ->
         extract_content article = strip_tags (Py.dict_get inner "content" JNull))
  /\ (forall inner,
         Py.truthy (Py.dict_get article "fullContent" JNull) = false ->
         no_nested_text article "content" ->
         Py.dict_get article "summary" JNull = JObj inner ->
         Py.truthy (Py.dict_get inner "content" JNull) = true ->
         extract_content article = strip_tags (Py.dict_get inner "content" JNull))
  /\ (Py.truthy (Py.dict_get article "fullContent" JNull) = false ->
      no_nested_text article "content" ->
      no_nested_text article "summary" ->
      extract_content article = Ok "")
  /\ (Py.truthy (Py.dict_get article "fullContent" JNull) = false ->
      Py.truthy (Py.dict_get article "content" JNull) = true ->
      (forall inner, Py.dict_get article "content" JNull <> JObj inner) ->
      extract_content article = Raise AttributeError).
Proof.
  unfold extract_content. repeat apply conj.
  - intros ->. reflexivity.
  - intros inner -> Hd H. rewrite (nested_content_text _ _ _ Hd H).
    cbn [bind]. rewrite H. reflexivity.
  - intros inner -> Hc Hd H.
    destruct (nested_content_none _ _ Hc) as (v & -> & Hv). cbn [bind].
    rewrite Hv.
    rewrite (nested_content_text _ _ _ Hd H). cbn [bind]. rewrite H.
    reflexivity.
  - intros -> Hc Hs.
    destruct (nested_content_none _ _ Hc) as (v & -> & Hv). cbn [bind].
    rewrite Hv.
    destruct (nested_content_none _ _ Hs) as (w & -> & Hw). cbn [bind].
    rewrite Hw. reflexivity.
  - intros -> Ht Hd. unfold nested_content. rewrite Ht.
    destruct (Py.dict_get article "content" JNull); try reflexivity.
    exfalso. apply (Hd fields). reflexivity.
Qed.

Lemma extract_content_precedence_witness :
  extract_content
    [("fullContent", JStr "<p></p>");
     ("content", JStr "not a dict");
     ("summary", JObj [("content", JStr "<b>Short</b> text")])]
  = Ok ""
  /\ extract_content
       [("fullContent", JStr "");
        ("summary", JObj [("content", JStr "<b>Short</b> text")])]
     = Ok "Short text"
  /\ extract_content [("content", JStr "not a dict")] = Raise AttributeError.
Proof.
  split; [|split].
  - refine (eq_trans (proj1 (extract_content_precedence _) _) _); reflexivity.
  - refine (eq_trans
              (proj1 (proj2 (proj2 (extract_content_precedence _)))
                 [("content", JStr "<b>Short</b> text")] _ _ _ _) _);
      try reflexivity.
    left. reflexivity.
  - apply (proj2 (proj2 (proj2 (proj2 (extract_content_precedence _)))));
      [reflexivity | reflexivity |].
    intros inner. discriminate.
Defined.
